(** * Room inventory availability and booking lifecycle

    A shallow embedding of the booking routes
    ([backend/app/routes/bookings.py]) and of the entities they touch
    ([backend/app/models/models.py], [backend/app/models/booking.py]),
    followed by the properties of the availability search, of the
    cancellation policy and of the booking state machine.

    Conventions of the embedding:
    - a [date] is a day number and a [datetime] a number of seconds (UTC),
      both in [Z]; [utc_date] is [datetime.utcnow().date()];
    - a [Decimal] is a coefficient and an exponent, with the arithmetic of
      Python's [decimal] module under its default context;
    - the record store is passed explicitly: every route is a function from
      the store to a response and the store it leaves behind; a route that
      raises inside its [try] block answers 500 after [db.session.rollback()],
      which is the unchanged store;
    - tables whose rows are only looked up by primary key are finite maps,
      tables that are scanned are lists in the order the store yields rows;
    - a row that is flushed holds what its columns keep of the values the
      route assigned: a [Numeric(10, 2)] column keeps two decimal places,
      and a value outside the range of an [Integer], [Numeric] or
      [String(n)] column makes the flush raise;
    - the primary key of a new row is drawn from the sequence of its table.
      The sequences of [users] and [bookings] are not rolled back with a
      transaction, so the keys they yield are inputs of the route that
      inserts, next to the clock and the booking number. *)

From Stdlib Require Import ZArith Bool List String Lia.
From stdpp Require Import base option list gmap strings fin_maps.
Import ListNotations.

Local Open Scope string_scope.
Local Open Scope list_scope.
Local Open Scope Z_scope.

(** ** Exact decimals *)

Module Decimal.

(** [coef * 10 ^ exp]; the sign is the sign of [coef]. *)
Record t : Type := mk { coef : Z; exp : Z }.

#[global] Instance t_eq_dec : EqDecision t.
Proof. solve_decision. Defined.

(** The default context: 28 significant digits, ROUND_HALF_EVEN. *)
Definition prec : Z := 28.

Fixpoint ndigits_aux (fuel : nat) (n : Z) : Z :=
  match fuel with
  | O => 1
  | S fuel' => if n <? 10 then 1 else 1 + ndigits_aux fuel' (n / 10)
  end.

(** Number of decimal digits of a non-negative coefficient. *)
Definition ndigits (n : Z) : Z := ndigits_aux (Z.to_nat (Z.log2 n)) n.

(** Drop the last [k] digits of [n >= 0], rounding half to even. *)
Definition round_half_even (n k : Z) : Z :=
  let q := n / 10 ^ k in
  let r := n mod 10 ^ k in
  let half := 5 * 10 ^ (k - 1) in
  if (half <? r) || ((r =? half) && Z.odd q) then q + 1 else q.

(** Rounding of a result to the context precision: a coefficient of at
    most [prec] digits is kept as it is. *)
Definition fix_ (d : t) : t :=
  let n := Z.abs (coef d) in
  if n <? 10 ^ prec then d
  else
    let k := ndigits n - prec in
    let q := round_half_even n k in
    if q <? 10 ^ prec then mk (Z.sgn (coef d) * q) (exp d + k)
    else mk (Z.sgn (coef d) * (q / 10)) (exp d + k + 1).

Definition neg (a : t) : t := mk (- coef a) (exp a).

(** [a * b]: coefficients multiply, exponents add, then the context rounds. *)
Definition mul (a b : t) : t := fix_ (mk (coef a * coef b) (exp a + exp b)).

(** [a + b]: the exact sum at the smaller exponent, then the context rounds. *)
Definition add (a b : t) : t :=
  let e := Z.min (exp a) (exp b) in
  fix_ (mk (coef a * 10 ^ (exp a - e) + coef b * 10 ^ (exp b - e)) e).

Definition sub (a b : t) : t := add a (neg b).

(** [a == b] and [a < b] compare values; no context is involved. *)
Definition eqb (a b : t) : bool :=
  let e := Z.min (exp a) (exp b) in
  coef a * 10 ^ (exp a - e) =? coef b * 10 ^ (exp b - e).

Definition ltb (a b : t) : bool :=
  let e := Z.min (exp a) (exp b) in
  coef a * 10 ^ (exp a - e) <? coef b * 10 ^ (exp b - e).

(** [Decimal('0.00')] and [Decimal('0.5')]. *)
Definition zero_00 : t := mk 0 (-2).
Definition half : t := mk 5 (-1).

(** The values a [Numeric(10, 2)] column holds: two decimal places and at
    most ten digits. *)
Definition numeric_10_2 (d : t) : Prop :=
  exp d = -2 /\ Z.abs (coef d) < 10 ^ 10.

(** What a column of scale 2 keeps of a value: the value at two decimal
    places, where a remainder of half a unit of the last place or more is
    rounded away from zero. *)
Definition to_scale_2 (d : t) : t :=
  if -2 <=? exp d then mk (coef d * 10 ^ (exp d + 2)) (-2)
  else
    let k := -2 - exp d in
    let n := Z.abs (coef d) in
    let q := n / 10 ^ k in
    let r := n mod 10 ^ k in
    mk (Z.sgn (coef d) * (if 5 * 10 ^ (k - 1) <=? r then q + 1 else q)) (-2).

(** Whether a [Numeric(10, 2)] column takes a value: at scale 2 it has at
    most ten digits. *)
Definition fits_10_2 (d : t) : bool :=
  Z.abs (coef (to_scale_2 d)) <? 10 ^ 10.

End Decimal.

(** ** Dates *)

Definition date : Type := Z.
Definition datetime : Type := Z.

(** [datetime.utcnow().date()] for a clock reading in seconds. *)
Definition utc_date (now : datetime) : date := now / 86400.

(** ** Enumerations ([models.py]) *)

Inductive RoomStatus : Type :=
  | OCCUPIED | VACANT_DIRTY | CLEAN_READY | OUT_OF_ORDER | INSPECTED.

Inductive BookingStatus : Type :=
  | PENDING | CONFIRMED | CHECKED_IN | CHECKED_OUT | CANCELLED.

Inductive UserRole : Type :=
  | SUPER_ADMIN | CORPORATE_MANAGER | HOTEL_MANAGER | FRONT_DESK
  | HOUSEKEEPING | MAINTENANCE | RESTAURANT_STAFF | ACCOUNTANT.

#[global] Instance RoomStatus_eq_dec : EqDecision RoomStatus.
Proof. solve_decision. Defined.

#[global] Instance BookingStatus_eq_dec : EqDecision BookingStatus.
Proof. solve_decision. Defined.

#[global] Instance UserRole_eq_dec : EqDecision UserRole.
Proof. solve_decision. Defined.

(** ** Entities

    The columns the booking routes read or write.  The [created_at] and
    [updated_at] columns of [TimestampMixin] are filled by the column
    defaults of the mapper, not by the routes, and are left out, and so are
    the descriptive columns of rooms and room types (floor, bed type,
    amenities, images) and the columns of a housekeeping task that a fresh
    task leaves empty. *)

Module RoomType.
Record t : Type := mk {
  id : Z;
  hotel_id : Z;
  name : string;
  base_price : Decimal.t;
  max_occupancy : Z;
  deleted_at : option datetime;
  is_deleted : bool
}.
End RoomType.

Module Room.
Record t : Type := mk {
  id : Z;
  hotel_id : Z;
  room_type_id : Z;
  room_number : string;
  status : RoomStatus;
  deleted_at : option datetime;
  is_deleted : bool
}.

(** [room.status = v] *)
Definition set_status (v : RoomStatus) (r : t) : t :=
  mk (id r) (hotel_id r) (room_type_id r) (room_number r) v
     (deleted_at r) (is_deleted r).
End Room.

Module User.
Record t : Type := mk {
  id : Z;
  email : string;
  first_name : string;
  last_name : string;
  phone : string;
  id_number : option string;
  role : UserRole
}.
End User.

Module HousekeepingTask.
Record t : Type := mk {
  id : Z;
  room_id : Z;
  assigned_to : option Z;
  task_type : string;
  priority : string;
  status : string
}.
End HousekeepingTask.

Module Booking.
Record t : Type := mk {
  id : Z;
  booking_number : string;
  hotel_id : Z;
  guest_id : Z;
  room_id : option Z;
  room_type_id : Z;
  check_in_date : date;
  check_out_date : date;
  actual_check_in : option datetime;
  actual_check_out : option datetime;
  num_guests : Z;
  special_requests : option string;
  total_amount : Decimal.t;
  currency : string;
  status : BookingStatus;
  cancellation_reason : option string;
  cancelled_at : option datetime;
  refund_amount : option Decimal.t;
  deleted_at : option datetime;
  is_deleted : bool
}.

(** Attribute assignments, one per column the routes write. *)
Definition set_room_id (v : option Z) (b : t) : t :=
  mk (id b) (booking_number b) (hotel_id b) (guest_id b) v (room_type_id b)
     (check_in_date b) (check_out_date b) (actual_check_in b)
     (actual_check_out b) (num_guests b) (special_requests b)
     (total_amount b) (currency b) (status b) (cancellation_reason b)
     (cancelled_at b) (refund_amount b) (deleted_at b) (is_deleted b).

Definition set_actual_check_in (v : option datetime) (b : t) : t :=
  mk (id b) (booking_number b) (hotel_id b) (guest_id b) (room_id b)
     (room_type_id b) (check_in_date b) (check_out_date b) v
     (actual_check_out b) (num_guests b) (special_requests b)
     (total_amount b) (currency b) (status b) (cancellation_reason b)
     (cancelled_at b) (refund_amount b) (deleted_at b) (is_deleted b).

Definition set_actual_check_out (v : option datetime) (b : t) : t :=
  mk (id b) (booking_number b) (hotel_id b) (guest_id b) (room_id b)
     (room_type_id b) (check_in_date b) (check_out_date b)
     (actual_check_in b) v (num_guests b) (special_requests b)
     (total_amount b) (currency b) (status b) (cancellation_reason b)
     (cancelled_at b) (refund_amount b) (deleted_at b) (is_deleted b).

Definition set_status (v : BookingStatus) (b : t) : t :=
  mk (id b) (booking_number b) (hotel_id b) (guest_id b) (room_id b)
     (room_type_id b) (check_in_date b) (check_out_date b)
     (actual_check_in b) (actual_check_out b) (num_guests b)
     (special_requests b) (total_amount b) (currency b) v
     (cancellation_reason b) (cancelled_at b) (refund_amount b)
     (deleted_at b) (is_deleted b).

Definition set_cancellation_reason (v : option string) (b : t) : t :=
  mk (id b) (booking_number b) (hotel_id b) (guest_id b) (room_id b)
     (room_type_id b) (check_in_date b) (check_out_date b)
     (actual_check_in b) (actual_check_out b) (num_guests b)
     (special_requests b) (total_amount b) (currency b) (status b) v
     (cancelled_at b) (refund_amount b) (deleted_at b) (is_deleted b).

Definition set_cancelled_at (v : option datetime) (b : t) : t :=
  mk (id b) (booking_number b) (hotel_id b) (guest_id b) (room_id b)
     (room_type_id b) (check_in_date b) (check_out_date b)
     (actual_check_in b) (actual_check_out b) (num_guests b)
     (special_requests b) (total_amount b) (currency b) (status b)
     (cancellation_reason b) v (refund_amount b) (deleted_at b)
     (is_deleted b).

Definition set_total_amount (v : Decimal.t) (b : t) : t :=
  mk (id b) (booking_number b) (hotel_id b) (guest_id b) (room_id b)
     (room_type_id b) (check_in_date b) (check_out_date b)
     (actual_check_in b) (actual_check_out b) (num_guests b)
     (special_requests b) v (currency b) (status b)
     (cancellation_reason b) (cancelled_at b) (refund_amount b)
     (deleted_at b) (is_deleted b).

Definition set_refund_amount (v : option Decimal.t) (b : t) : t :=
  mk (id b) (booking_number b) (hotel_id b) (guest_id b) (room_id b)
     (room_type_id b) (check_in_date b) (check_out_date b)
     (actual_check_in b) (actual_check_out b) (num_guests b)
     (special_requests b) (total_amount b) (currency b) (status b)
     (cancellation_reason b) (cancelled_at b) v (deleted_at b)
     (is_deleted b).

(** The two columns of [SoftDeleteMixin]. *)
Definition set_soft_delete (flag : bool) (at_ : option datetime) (b : t) : t :=
  mk (id b) (booking_number b) (hotel_id b) (guest_id b) (room_id b)
     (room_type_id b) (check_in_date b) (check_out_date b)
     (actual_check_in b) (actual_check_out b) (num_guests b)
     (special_requests b) (total_amount b) (currency b) (status b)
     (cancellation_reason b) (cancelled_at b) (refund_amount b) at_ flag.

(** [num_nights] *)
Definition num_nights (b : t) : Z := check_out_date b - check_in_date b.

(** [is_active]: the booking is CONFIRMED or CHECKED_IN. *)
Definition is_active (b : t) : bool :=
  bool_decide (status b = CONFIRMED) || bool_decide (status b = CHECKED_IN).

(** [calculate_cancellation_charge], with the clock reading passed in.
    The receiver's [check_in_date] is an optional argument so that the
    guard on a missing date is kept. *)
Definition cancellation_charge (check_in : option date)
    (total : Decimal.t) (now : datetime) : Decimal.t :=
  match check_in with
  | None => Decimal.zero_00
  | Some d =>
      let days_until_checkin := d - utc_date now in
      if 2 <=? days_until_checkin then Decimal.zero_00
      else if 0 <=? days_until_checkin then Decimal.mul total Decimal.half
      else total
  end.

Definition calculate_cancellation_charge (b : t) (now : datetime) : Decimal.t :=
  cancellation_charge (Some (check_in_date b)) (total_amount b) now.

(** What [to_dict] shows of the booking itself; the amount is shown before
    its conversion to a float, and the nested [guest] and [room] entries
    are rendered by those entities' serializers. *)
Record dict : Type := mk_dict {
  d_id : Z;
  d_booking_number : string;
  d_hotel_id : Z;
  d_guest_id : Z;
  d_room_id : option Z;
  d_room_type_id : Z;
  d_check_in_date : date;
  d_check_out_date : date;
  d_actual_check_in : option datetime;
  d_actual_check_out : option datetime;
  d_num_guests : Z;
  d_num_nights : Z;
  d_special_requests : option string;
  d_total_amount : Decimal.t;
  d_currency : string;
  d_status : BookingStatus;
  d_is_active : bool
}.

Definition to_dict (b : t) : dict :=
  mk_dict (id b) (booking_number b) (hotel_id b) (guest_id b) (room_id b)
    (room_type_id b) (check_in_date b) (check_out_date b)
    (actual_check_in b) (actual_check_out b) (num_guests b) (num_nights b)
    (special_requests b) (total_amount b) (currency b) (status b)
    (is_active b).
End Booking.

(** [SoftDeleteMixin.soft_delete] on a booking. *)
Definition soft_delete (now : datetime) (b : Booking.t) : Booking.t :=
  Booking.set_soft_delete true (Some now) b.

(** ** The record store *)

Record Store : Type := mkStore {
  hotels : gset Z;                          (* primary keys of [hotels] *)
  users : list User.t;
  room_types : list RoomType.t;
  rooms : list Room.t;
  bookings : gmap Z Booking.t;              (* by primary key *)
  housekeeping_tasks : list HousekeepingTask.t
}.

Definition set_users (v : list User.t) (s : Store) : Store :=
  mkStore (hotels s) v (room_types s) (rooms s) (bookings s)
          (housekeeping_tasks s).

Definition set_rooms (v : list Room.t) (s : Store) : Store :=
  mkStore (hotels s) (users s) (room_types s) v (bookings s)
          (housekeeping_tasks s).

Definition set_bookings (v : gmap Z Booking.t) (s : Store) : Store :=
  mkStore (hotels s) (users s) (room_types s) (rooms s) v
          (housekeeping_tasks s).

Definition set_housekeeping_tasks (v : list HousekeepingTask.t) (s : Store) : Store :=
  mkStore (hotels s) (users s) (room_types s) (rooms s) (bookings s) v.

(** The rows of [bookings], for the queries that scan the table. *)
Definition booking_rows (s : Store) : list Booking.t :=
  (map_to_list (bookings s)).*2.

(** [Room.query.get(room_id)] *)
Definition get_room (room_id : Z) (l : list Room.t) : option Room.t :=
  List.find (fun r => Room.id r =? room_id) l.

(** Writing back the row fetched by [get_room]. *)
Fixpoint update_room (room_id : Z) (f : Room.t -> Room.t) (l : list Room.t)
    : list Room.t :=
  match l with
  | [] => []
  | r :: l' =>
      if Room.id r =? room_id then f r :: l'
      else r :: update_room room_id f l'
  end.

(** The autoincremented primary key of a housekeeping task.  Tasks are
    only inserted by [check_out], whose flush cannot fail once the task is
    built, so the sequence of the table stays at the largest key. *)
Definition next_task_id (s : Store) : Z :=
  1 + fold_right (fun t acc => Z.max (HousekeepingTask.id t) acc) 0
        (housekeeping_tasks s).

(** Python truthiness of an optional integer: [not x] holds for [None]
    and for [0]. *)
Definition falsy (x : option Z) : bool :=
  match x with
  | None => true
  | Some n => n =? 0
  end.

(** ** Responses *)

Inductive Response (A : Type) : Type :=
  | Success (code : Z) (body : A)         (* [jsonify(body), code] *)
  | Failure (code : Z) (error : string)   (* [jsonify({'error': error}), code] *)
  | InternalError.                        (* [jsonify({'error': str(e)}), 500] *)

Arguments Success {A} code body.
Arguments Failure {A} code error.
Arguments InternalError {A}.

(** [{'message': ..., 'booking': booking.to_dict()}] *)
Record BookingBody : Type := mkBookingBody {
  message : string;
  booking : Booking.dict
}.

(** The body of a successful cancellation. *)
Record CancelBody : Type := mkCancelBody {
  cancel_message : string;
  cancellation_charge : Decimal.t;
  refund_amount : Decimal.t;
  cancel_booking_dict : Booking.dict
}.

(** ** Availability search *)

(** One entry of [available_room_types].  The price fields are binary
    floats computed from [base_price] and are not part of the entry here. *)
Record AvailableType : Type := mkAvailableType {
  room_type : RoomType.t;
  available_rooms : Z;
  num_nights : Z
}.

Record SearchBody : Type := mkSearchBody {
  sb_hotel_id : Z;
  sb_check_in_date : date;
  sb_check_out_date : date;
  sb_num_nights : Z;
  sb_num_guests : Z;
  available_room_types : list AvailableType
}.

(** The [or_] of three [and_] clauses in the booked-rooms query. *)
Definition date_filter (b_check_in b_check_out check_in check_out : date) : bool :=
  ((b_check_in <=? check_in) && (check_in <? b_check_out))
  || ((b_check_in <? check_out) && (check_out <=? b_check_out))
  || ((check_in <=? b_check_in) && (b_check_out <=? check_out)).

(** The room types the search looks at. *)
Definition room_type_filter (hotel_id num_guests : Z) (rt : RoomType.t) : bool :=
  (RoomType.hotel_id rt =? hotel_id)
  && negb (RoomType.is_deleted rt)
  && (num_guests <=? RoomType.max_occupancy rt).

(** [total_rooms] *)
Definition total_rooms (s : Store) (hotel_id room_type_id : Z) : Z :=
  Z.of_nat (length (List.filter
    (fun r => (Room.hotel_id r =? hotel_id)
              && (Room.room_type_id r =? room_type_id)
              && negb (Room.is_deleted r)
              && negb (bool_decide (Room.status r = OUT_OF_ORDER)))
    (rooms s))).

(** [booked_rooms] *)
Definition booked_rooms (s : Store) (hotel_id room_type_id : Z)
    (check_in check_out : date) : Z :=
  Z.of_nat (length (List.filter
    (fun b => (Booking.room_type_id b =? room_type_id)
              && (Booking.hotel_id b =? hotel_id)
              && (bool_decide (Booking.status b = CONFIRMED)
                  || bool_decide (Booking.status b = CHECKED_IN))
              && date_filter (Booking.check_in_date b)
                   (Booking.check_out_date b) check_in check_out)
    (booking_rows s))).

(** The [for room_type in room_types] loop, appending to [available_types]. *)
Fixpoint available_types_loop (s : Store) (hotel_id : Z)
    (check_in check_out : date) (room_types : list RoomType.t)
    (available_types : list AvailableType) : list AvailableType :=
  match room_types with
  | [] => available_types
  | room_type :: rest =>
      let total := total_rooms s hotel_id (RoomType.id room_type) in
      let booked :=
        booked_rooms s hotel_id (RoomType.id room_type) check_in check_out in
      let available := total - booked in
      if 0 <? available then
        available_types_loop s hotel_id check_in check_out rest
          (available_types
             ++ [mkAvailableType room_type available (check_out - check_in)])
      else
        available_types_loop s hotel_id check_in check_out rest available_types
  end.

(** [search_availability], for a request whose required fields are present
    and whose dates parse; [today] is [date.today()]. *)
Definition search_availability (today : date) (hotel_id : Z)
    (check_in check_out : date) (num_guests : Z) (s : Store)
    : Response SearchBody :=
  if check_out <=? check_in then
    Failure 400 "Check-out must be after check-in"
  else if check_in <? today then
    Failure 400 "Check-in date cannot be in the past"
  else
    let room_types :=
      List.filter (room_type_filter hotel_id num_guests) (room_types s) in
    let available_types :=
      available_types_loop s hotel_id check_in check_out room_types [] in
    Success 200
      (mkSearchBody hotel_id check_in check_out (check_out - check_in)
         num_guests available_types).

(** ** Booking lifecycle routes *)

(** The JSON body of a creation request whose required fields are present
    and whose dates parse. *)
Record CreateData : Type := mkCreateData {
  cd_hotel_id : Z;
  cd_room_type_id : Z;
  cd_check_in_date : date;
  cd_check_out_date : date;
  cd_num_guests : Z;
  cd_guest_email : string;
  cd_guest_first_name : string;
  cd_guest_last_name : string;
  cd_guest_phone : string;
  cd_total_amount : Decimal.t;
  cd_guest_id_number : option string;
  cd_special_requests : option string;
  cd_currency : option string
}.

(** An [Integer] column takes a signed number of 32 bits. *)
Definition integer_column (v : Z) : bool :=
  (-2147483648 <=? v) && (v <=? 2147483647).

(** A [String(n)] column takes at most [n] characters. *)
Definition string_column (n : nat) (v : string) : bool :=
  (String.length v <=? n)%nat.

(** What the store checks when a new row of [users] is flushed: the primary
    key and the lengths of the [String] columns.  The row is only built
    when no user has its email, so the unique email holds. *)
Definition user_integrity (s : Store) (u : User.t) : bool :=
  forallb (fun u' => negb (User.id u' =? User.id u)) (users s)
  && string_column 120 (User.email u)
  && string_column 100 (User.first_name u)
  && string_column 100 (User.last_name u)
  && string_column 20 (User.phone u)
  && from_option (string_column 50) true (User.id_number u).

(** What the store checks when the new row of [bookings] is flushed: the
    primary key, the foreign keys to [hotels] and [room_types], the unique
    booking number, and the ranges of the [String], [Integer] and
    [Numeric] columns. *)
Definition create_integrity (s : Store) (b : Booking.t) : bool :=
  bool_decide (bookings s !! Booking.id b = None)
  && bool_decide (Booking.hotel_id b ∈ hotels s)
  && existsb (fun rt => RoomType.id rt =? Booking.room_type_id b) (room_types s)
  && forallb (fun b' => negb (String.eqb (Booking.booking_number b')
                                         (Booking.booking_number b)))
             (booking_rows s)
  && string_column 20 (Booking.booking_number b)
  && integer_column (Booking.num_guests b)
  && Decimal.fits_10_2 (Booking.total_amount b)
  && string_column 3 (Booking.currency b).

(** [create_booking]; [booking_number] is the number drawn by
    [generate_booking_number], [user_id] and [booking_id] are the keys the
    sequences of [users] and [bookings] yield for the rows the request
    inserts. *)
Definition create_booking (booking_number : string) (user_id booking_id : Z)
    (data : CreateData) (s : Store) : Response BookingBody * Store :=
  let check_in := cd_check_in_date data in
  let check_out := cd_check_out_date data in
  (* Create or get guest user *)
  let guest :=
    match List.find (fun u => String.eqb (User.email u) (cd_guest_email data))
                    (users s) with
    | Some guest => Some (User.id guest, users s)
    | None =>
        let guest :=
          User.mk user_id (cd_guest_email data)
            (cd_guest_first_name data) (cd_guest_last_name data)
            (cd_guest_phone data) (cd_guest_id_number data) FRONT_DESK in
        (* db.session.flush() *)
        if user_integrity s guest then Some (User.id guest, users s ++ [guest])
        else None
    end in
  match guest with
  | None => (InternalError, s)
  | Some (guest_id, users') =>
      (* Create booking *)
      let booking :=
        Booking.mk booking_id booking_number (cd_hotel_id data) guest_id
          None (cd_room_type_id data) check_in check_out None None
          (cd_num_guests data) (cd_special_requests data)
          (cd_total_amount data) (default "USD" (cd_currency data)) PENDING
          None None None None false in
      (* db.session.commit() *)
      if create_integrity s booking then
        let booking :=
          Booking.set_total_amount
            (Decimal.to_scale_2 (Booking.total_amount booking)) booking in
        (Success 201
           (mkBookingBody "Booking created successfully"
              (Booking.to_dict booking)),
         set_bookings (<[Booking.id booking := booking]> (bookings s))
           (set_users users' s))
      else (InternalError, s)
  end.

(** [get_booking] *)
Definition get_booking (booking_id : Z) (s : Store) : Response Booking.dict :=
  match bookings s !! booking_id with
  | None => Failure 404 "Booking not found"
  | Some booking =>
      if Booking.is_deleted booking then Failure 404 "Booking not found"
      else Success 200 (Booking.to_dict booking)
  end.

(** [confirm_booking] *)
Definition confirm_booking (booking_id : Z) (s : Store)
    : Response BookingBody * Store :=
  match bookings s !! booking_id with
  | None => (Failure 404 "Booking not found", s)
  | Some booking =>
      let booking := Booking.set_status CONFIRMED booking in
      (Success 200 (mkBookingBody "Booking confirmed" (Booking.to_dict booking)),
       set_bookings (<[booking_id := booking]> (bookings s)) s)
  end.

(** [cancel_booking]; [reason] is [data.get('reason')] and [now] the clock
    reading of the request. *)
Definition cancel_booking (now : datetime) (reason : option string)
    (booking_id : Z) (s : Store) : Response CancelBody * Store :=
  match bookings s !! booking_id with
  | None => (Failure 404 "Booking not found", s)
  | Some booking =>
      if bool_decide (Booking.status booking = CANCELLED) then
        (Failure 400 "Booking already cancelled", s)
      else
        (* Calculate cancellation charge *)
        let charge := Booking.calculate_cancellation_charge booking now in
        let refund := Decimal.sub (Booking.total_amount booking) charge in
        let booking := Booking.set_status CANCELLED booking in
        let booking := Booking.set_cancelled_at (Some now) booking in
        let booking := Booking.set_cancellation_reason reason booking in
        (* db.session.commit(): the column keeps the refund at two decimal
           places; the refund of an amount the [total_amount] column holds
           is within its range *)
        let booking :=
          Booking.set_refund_amount (Some (Decimal.to_scale_2 refund))
            booking in
        (Success 200
           (mkCancelBody "Booking cancelled" charge refund
              (Booking.to_dict booking)),
         set_bookings (<[booking_id := booking]> (bookings s)) s)
  end.

(** The rooms the auto-assignment of [check_in] chooses from. *)
Definition clean_room_filter (booking : Booking.t) (r : Room.t) : bool :=
  (Room.hotel_id r =? Booking.hotel_id booking)
  && (Room.room_type_id r =? Booking.room_type_id booking)
  && bool_decide (Room.status r = CLEAN_READY)
  && negb (Room.is_deleted r).

(** The room-assignment step of [check_in]: the id the booking ends up
    with, or [None] when the route answers "No clean rooms available".
    [.first()] is the first matching row the store yields; the query has
    no [order_by]. *)
Definition assign_room (requested_room_id : option Z) (booking : Booking.t)
    (s : Store) : option Z :=
  if falsy (Booking.room_id booking) then
    if falsy requested_room_id then
      (* Auto-assign first available room of this type *)
      Room.id <$> List.find (clean_room_filter booking) (rooms s)
    else requested_room_id
  else Booking.room_id booking.

(** [check_in], behind [token_required]; [requested_room_id] is
    [data.get('room_id')]. *)
Definition check_in (now : datetime) (requested_room_id : option Z)
    (booking_id : Z) (s : Store) : Response BookingBody * Store :=
  match bookings s !! booking_id with
  | None => (Failure 404 "Booking not found", s)
  | Some booking =>
      if negb (bool_decide (Booking.status booking = CONFIRMED)) then
        (Failure 400 "Booking must be confirmed before check-in", s)
      else
        (* Assign room if not already assigned *)
        match assign_room requested_room_id booking s with
        | None => (Failure 400 "No clean rooms available", s)
        | Some room_id =>
            let booking := Booking.set_room_id (Some room_id) booking in
            (* Update booking *)
            let booking := Booking.set_status CHECKED_IN booking in
            let booking := Booking.set_actual_check_in (Some now) booking in
            (* Update room status *)
            match get_room room_id (rooms s) with
            | None => (InternalError, s)   (* [room] is [None] *)
            | Some room =>
                (Success 200
                   (mkBookingBody "Check-in successful"
                      (Booking.to_dict booking)),
                 set_rooms
                   (update_room room_id (Room.set_status OCCUPIED) (rooms s))
                   (set_bookings (<[booking_id := booking]> (bookings s)) s))
            end
        end
  end.

(** [booking.room]: the row the [room_id] foreign key points at, with the
    key. *)
Definition booking_room (booking : Booking.t) (s : Store)
    : option (Z * Room.t) :=
  match Booking.room_id booking with
  | None => None
  | Some room_id => pair room_id <$> get_room room_id (rooms s)
  end.

(** [check_out], behind [token_required]. *)
Definition check_out (now : datetime) (booking_id : Z) (s : Store)
    : Response BookingBody * Store :=
  match bookings s !! booking_id with
  | None => (Failure 404 "Booking not found", s)
  | Some booking =>
      if negb (bool_decide (Booking.status booking = CHECKED_IN)) then
        (Failure 400 "Guest is not checked in", s)
      else
        let booking' := Booking.set_status CHECKED_OUT booking in
        let booking' := Booking.set_actual_check_out (Some now) booking' in
        let s' := set_bookings (<[booking_id := booking']> (bookings s)) s in
        (* Update room status to dirty *)
        let s' :=
          match booking_room booking s with
          | None => s'
          | Some (room_id, room) =>
              (* Create housekeeping task *)
              let task :=
                HousekeepingTask.mk (next_task_id s) room_id None
                  "cleaning" "normal" "pending" in
              set_housekeeping_tasks (housekeeping_tasks s ++ [task])
                (set_rooms
                   (update_room (Room.id room) (Room.set_status VACANT_DIRTY)
                      (rooms s))
                   s')
          end in
        (Success 200
           (mkBookingBody "Check-out successful" (Booking.to_dict booking')),
         s')
  end.

(** ** Notions of the specification *)

(** The reduced overlap test of two half-open ranges [[a1, a2)] and
    [[b1, b2)]: [a1 < b2 and b1 < a2]. *)
Definition overlaps (a1 a2 b1 b2 : date) : bool :=
  (a1 <? b2) && (b1 <? a2).

(** A room that a search counts for a room type: of the property and the
    type, not soft-deleted and not OUT_OF_ORDER. *)
Definition sellable_room (hotel_id room_type_id : Z) (r : Room.t) : Prop :=
  Room.hotel_id r = hotel_id
  /\ Room.room_type_id r = room_type_id
  /\ Room.is_deleted r = false
  /\ Room.status r <> OUT_OF_ORDER.

#[global] Instance sellable_room_dec hotel_id room_type_id r :
  Decision (sellable_room hotel_id room_type_id r).
Proof. unfold sellable_room. apply _. Defined.

(** A booking that takes a room of a type over [[check_in, check_out)]: of
    the property and the type, CONFIRMED or CHECKED_IN, and with a date
    range that overlaps the range, [booking.check_in < check_out] and
    [check_in < booking.check_out]. *)
Definition occupying (hotel_id room_type_id : Z) (check_in check_out : date)
    (b : Booking.t) : Prop :=
  Booking.hotel_id b = hotel_id
  /\ Booking.room_type_id b = room_type_id
  /\ (Booking.status b = CONFIRMED \/ Booking.status b = CHECKED_IN)
  /\ Booking.check_in_date b < check_out
  /\ check_in < Booking.check_out_date b.

#[global] Instance occupying_dec hotel_id room_type_id check_in check_out b :
  Decision (occupying hotel_id room_type_id check_in check_out b).
Proof. unfold occupying. apply _. Defined.

(** A room the auto-assignment may pick for a booking: of the booking's
    property and room type, CLEAN_READY and not soft-deleted. *)
Definition candidate_room (booking : Booking.t) (r : Room.t) : Prop :=
  Room.hotel_id r = Booking.hotel_id booking
  /\ Room.room_type_id r = Booking.room_type_id booking
  /\ Room.status r = CLEAN_READY
  /\ Room.is_deleted r = false.

(** The candidate with the smallest room number (room numbers are strings). *)
Definition lowest_numbered (booking : Booking.t) (s : Store) (r : Room.t) : Prop :=
  In r (rooms s)
  /\ candidate_room booking r
  /\ forall r', In r' (rooms s) -> candidate_room booking r' ->
       String.leb (Room.room_number r) (Room.room_number r') = true.

(** The booking-record invariant of the data model: the stay has at least
    one night, and a room is assigned exactly when the booking is checked
    in or out, or was checked in before it was cancelled. *)
Definition booking_invariant (b : Booking.t) : Prop :=
  Booking.check_in_date b < Booking.check_out_date b
  /\ (is_Some (Booking.room_id b)
      <-> Booking.status b = CHECKED_IN
          \/ Booking.status b = CHECKED_OUT
          \/ (Booking.status b = CANCELLED
              /\ is_Some (Booking.actual_check_in b))).

(** Primary keys of [rooms] are unique. *)
Definition rooms_pk_unique (s : Store) : Prop :=
  NoDup (List.map Room.id (rooms s)).

(** The store with the soft-delete columns of one booking overwritten. *)
Definition with_soft_delete (flag : bool) (at_ : option datetime)
    (booking_id : Z) (s : Store) : Store :=
  set_bookings
    (alter (Booking.set_soft_delete flag at_) booking_id (bookings s)) s.

(** ** Auxiliary definitions *)

(** What one pass of the search loop contributes for a room type. *)
Definition loop_entry (s : Store) (hotel_id : Z) (check_in check_out : date)
    (rt : RoomType.t) : list AvailableType :=
  let available :=
    total_rooms s hotel_id (RoomType.id rt)
    - booked_rooms s hotel_id (RoomType.id rt) check_in check_out in
  if 0 <? available then [mkAvailableType rt available (check_out - check_in)]
  else [].


(** What a transition does to a store whose soft-delete columns were
    overwritten, in terms of what it does to the store itself. *)
Definition carried_over {A : Type} (flag : bool) (at_ : option datetime)
    (booking_id : Z) (r : Response A * Store) : Response A * Store :=
  (r.1, with_soft_delete flag at_ booking_id r.2).

(** ** A worked scenario

    A property with two Standard rooms (two guests at most), yielded by the
    store in the order they were inserted: room 102, then room 101.  One
    stay from day 19783 (2024-03-01) to day 19785 (2024-03-03). *)

Definition standard : RoomType.t :=
  RoomType.mk 1 1 "Standard" (Decimal.mk 10000 (-2)) 2 None false.

Definition room_102 : Room.t := Room.mk 1 1 1 "102" CLEAN_READY None false.
Definition room_101 : Room.t := Room.mk 2 1 1 "101" CLEAN_READY None false.

Definition demo_store : Store :=
  mkStore {[1]} [] [standard] [room_102; room_101] ∅ [].

Definition demo_request : CreateData :=
  mkCreateData 1 1 19783 19785 2 "ada@example.org" "Ada" "Lovelace" "0700"
    (Decimal.mk 20000 (-2)) None None None.

(** 2024-03-01, 15:00 UTC. *)
Definition demo_now : datetime := 19783 * 86400 + 15 * 3600.

Definition pending_store : Store :=
  (create_booking "BK20240227A1B2C3" 1 1 demo_request demo_store).2.

Definition confirmed_store : Store := (confirm_booking 1 pending_store).2.

Definition checked_in_store : Store :=
  (check_in demo_now None 1 confirmed_store).2.

Definition checked_out_store : Store :=
  (check_out (demo_now + 2 * 86400) 1 checked_in_store).2.

Definition cancelled_store : Store :=
  (cancel_booking demo_now None 1 pending_store).2.

(** A stay of no night: check-in and check-out on the same day. *)
Definition zero_night_request : CreateData :=
  mkCreateData 1 1 19783 19783 2 "ada@example.org" "Ada" "Lovelace" "0700"
    (Decimal.mk 20000 (-2)) None None None.

(** Five guests for a room type that takes two. *)
Definition crowded_request : CreateData :=
  mkCreateData 1 1 19783 19785 5 "ada@example.org" "Ada" "Lovelace" "0700"
    (Decimal.mk 20000 (-2)) None None None.

(** The stay of the scenario at 100.01: half of it is not a whole number
    of cents. *)
Definition odd_cents_request : CreateData :=
  mkCreateData 1 1 19783 19785 2 "ada@example.org" "Ada" "Lovelace" "0700"
    (Decimal.mk 10001 (-2)) None None None.

Definition odd_cents_store : Store :=
  (create_booking "BK20240227A1B2C3" 1 1 odd_cents_request demo_store).2.

(** The confirmed booking of the scenario, soft-deleted. *)
Definition deleted_store : Store :=
  set_bookings (alter (soft_delete demo_now) 1 (bookings confirmed_store))
    confirmed_store.

(** ** Sequences of requests *)

Inductive Request : Type :=
  | CreateBooking (booking_number : string) (user_id booking_id : Z)
      (data : CreateData)
  | ConfirmBooking (booking_id : Z)
  | CancelBooking (now : datetime) (reason : option string) (booking_id : Z)
  | CheckIn (now : datetime) (requested_room_id : option Z) (booking_id : Z)
  | CheckOut (now : datetime) (booking_id : Z).

(** The store a request leaves behind. *)
Definition handle (r : Request) (s : Store) : Store :=
  match r with
  | CreateBooking booking_number user_id booking_id data =>
      (create_booking booking_number user_id booking_id data s).2
  | ConfirmBooking booking_id => (confirm_booking booking_id s).2
  | CancelBooking now reason booking_id =>
      (cancel_booking now reason booking_id s).2
  | CheckIn now requested_room_id booking_id =>
      (check_in now requested_room_id booking_id s).2
  | CheckOut now booking_id => (check_out now booking_id s).2
  end.

Definition run (requests : list Request) (s : Store) : Store :=
  fold_left (fun s r => handle r s) requests s.

(** Requests of a guest who is not registered: for a property that does
    not exist, for a party that no [Integer] holds, for an amount that
    rounds to eleven digits, with a phone number of 21 characters, and in a
    currency of four letters. *)
Definition bob_request (hotel_id num_guests : Z) (phone : string)
    (total_amount : Decimal.t) (currency : option string) : CreateData :=
  mkCreateData hotel_id 1 19783 19785 num_guests "bob@example.org" "Bob"
    "Hope" phone total_amount None None currency.

Definition rejected_requests : list Request :=
  CreateBooking "BK20240301Z9Y8X7" 2 2
  <$> [bob_request 9 2 "0711" (Decimal.mk 20000 (-2)) None;
       bob_request 1 2147483648 "0711" (Decimal.mk 20000 (-2)) None;
       bob_request 1 2 "0711" (Decimal.mk 9999999999995 (-5)) None;
       bob_request 1 2 "+254 700 000 000 0001" (Decimal.mk 20000 (-2)) None;
       bob_request 1 2 "0711" (Decimal.mk 20000 (-2)) (Some "KSHS")].

(** Every booking that is checked in or out has a room, and the room is a
    row of [rooms]. *)
Definition room_assigned (s : Store) : Prop :=
  forall booking_id b,
    bookings s !! booking_id = Some b ->
    Booking.status b = CHECKED_IN \/ Booking.status b = CHECKED_OUT ->
    exists room_id room,
      Booking.room_id b = Some room_id
      /\ get_room room_id (rooms s) = Some room.

(** ** Inventory held by a booking *)

(** The filter of the booked-rooms query, on one booking. *)
Definition counted (hotel_id room_type_id : Z) (check_in check_out : date)
    (b : Booking.t) : bool :=
  (Booking.room_type_id b =? room_type_id)
  && (Booking.hotel_id b =? hotel_id)
  && (bool_decide (Booking.status b = CONFIRMED)
      || bool_decide (Booking.status b = CHECKED_IN))
  && date_filter (Booking.check_in_date b) (Booking.check_out_date b)
       check_in check_out.

(** What a booking takes from the count of a search: one room or none. *)
Definition held (hotel_id room_type_id : Z) (check_in check_out : date)
    (b : Booking.t) : Z :=
  if counted hotel_id room_type_id check_in check_out b then 1 else 0.

(** The filter of the total-rooms query, on one room. *)
Definition in_pool (hotel_id room_type_id : Z) (r : Room.t) : bool :=
  (Room.hotel_id r =? hotel_id)
  && (Room.room_type_id r =? room_type_id)
  && negb (Room.is_deleted r)
  && negb (bool_decide (Room.status r = OUT_OF_ORDER)).

(** Whether a response is a success. *)
Definition succeeded {A : Type} (r : Response A) : bool :=
  match r with
  | Success _ _ => true
  | _ => false
  end.

(** Emails and primary keys of [users] are unique (the two unique
    constraints of the table). *)
Definition users_unique (s : Store) : Prop :=
  NoDup (List.map User.email (users s))
  /\ NoDup (List.map User.id (users s)).

(** [s'] differs from [s] at most in the booking [booking_id], in rooms and
    in housekeeping tasks. *)
Definition same_but_booking (booking_id : Z) (s s' : Store) : Prop :=
  hotels s' = hotels s
  /\ users s' = users s
  /\ room_types s' = room_types s
  /\ dom (bookings s') = dom (bookings s)
  /\ forall booking_id', booking_id' <> booking_id ->
       bookings s' !! booking_id' = bookings s !! booking_id'.

(** Whether the route answers a request with a success. *)
Definition handled_ok (r : Request) (s : Store) : bool :=
  match r with
  | CreateBooking booking_number user_id booking_id data =>
      succeeded (create_booking booking_number user_id booking_id data s).1
  | ConfirmBooking booking_id => succeeded (confirm_booking booking_id s).1
  | CancelBooking now reason booking_id =>
      succeeded (cancel_booking now reason booking_id s).1
  | CheckIn now requested_room_id booking_id =>
      succeeded (check_in now requested_room_id booking_id s).1
  | CheckOut now booking_id => succeeded (check_out now booking_id s).1
  end.

(** Whether a booking is of the room type and property of a search and
    passes its date test. *)
Definition matches (hotel_id room_type_id : Z) (check_in check_out : date)
    (b : Booking.t) : bool :=
  (Booking.room_type_id b =? room_type_id)
  && (Booking.hotel_id b =? hotel_id)
  && date_filter (Booking.check_in_date b) (Booking.check_out_date b)
       check_in check_out.

(** ** Rooms and the bookings that hold them *)

(** No room is held by two bookings, and no room that a booking holds is
    CLEAN_READY (so the automatic assignment cannot pick it). *)
Definition rooms_exclusive (s : Store) : Prop :=
  rooms_pk_unique s
  /\ (forall booking_id b room_id room,
        bookings s !! booking_id = Some b ->
        Booking.room_id b = Some room_id ->
        get_room room_id (rooms s) = Some room ->
        Room.status room <> CLEAN_READY)
  /\ (forall id1 id2 b1 b2 room_id,
        bookings s !! id1 = Some b1 ->
        bookings s !! id2 = Some b2 ->
        Booking.room_id b1 = Some room_id ->
        Booking.room_id b2 = Some room_id ->
        id1 = id2).

(** A request that names no room of its own. *)
Definition names_no_room (r : Request) : Prop :=
  match r with
  | CheckIn _ requested_room_id _ => falsy requested_room_id = true
  | _ => True
  end.

(** What the columns of a booking say about each other: a PENDING booking
    has no room, no stay and no cancellation; a checked-in booking has a
    check-in time; a check-out time comes with a check-in time, and a
    checked-out booking has both; a cancelled booking has a cancellation
    time and a refund. *)
Definition record_consistent (b : Booking.t) : Prop :=
  (Booking.status b = PENDING ->
   Booking.room_id b = None
   /\ Booking.actual_check_in b = None
   /\ Booking.actual_check_out b = None
   /\ Booking.cancelled_at b = None)
  /\ (Booking.status b = CHECKED_IN -> is_Some (Booking.actual_check_in b))
  /\ (is_Some (Booking.actual_check_out b) ->
      is_Some (Booking.actual_check_in b))
  /\ (Booking.status b = CHECKED_OUT -> is_Some (Booking.actual_check_out b))
  /\ (Booking.status b = CANCELLED ->
      is_Some (Booking.cancelled_at b) /\ is_Some (Booking.refund_amount b)).

Definition records_consistent (s : Store) : Prop :=
  forall booking_id b,
    bookings s !! booking_id = Some b -> record_consistent b.

(** ** Authentication of a request ([routes/auth.py])

    [check_in] and [check_out] are wrapped in [token_required].  The JWT
    library is outside the repository: [jwt_decode] stands for
    [jwt.decode] under the configured secret at the time of the request,
    with its three outcomes. *)

Module Account.
(** A row of [users] as the authentication code reads it: the columns of
    [User.t] and the credential columns. *)
Record t : Type := mk {
  user : User.t;
  password_hash : option string;
  hotel_id : option Z;
  is_active : bool;
  last_login : option datetime
}.
End Account.

(** The claims of a token: [payload['user_id']] and [payload['type']],
    either of which a signed token may lack. *)
Record Payload : Type := mkPayload {
  payload_user_id : option Z;
  payload_type : option string
}.

Inductive JwtResult : Type :=
  | Decoded (payload : Payload)
  | ExpiredSignatureError
  | InvalidTokenError.

(** The character [' ']. *)
Definition space : Ascii.ascii := Ascii.ascii_of_nat 32.

(** [s.split(sep)] for a one-character separator: every occurrence of the
    separator ends a field, so the result is never empty and may hold empty
    fields. *)
Fixpoint split (sep : Ascii.ascii) (s : string) : list string :=
  match s with
  | EmptyString => [EmptyString]
  | String c s' =>
      if Ascii.eqb c sep then EmptyString :: split sep s'
      else
        match split sep s' with
        | [] => [String c EmptyString]
        | field :: fields => String c field :: fields
        end
  end.

(** [User.query.get(user_id)] *)
Definition get_account (user_id : Z) (accounts : list Account.t)
    : option Account.t :=
  List.find (fun a => User.id (Account.user a) =? user_id) accounts.

(** [token_required]: [authorization] is the Authorization header of the
    request, [f] the wrapped route, which receives [current_user]. *)
Definition token_required {A : Type} (jwt_decode : string -> JwtResult)
    (accounts : list Account.t) (authorization : option string)
    (f : Account.t -> Store -> Response A * Store) (s : Store)
    : Response A * Store :=
  (* Get token from header *)
  let token :=
    match authorization with
    | None => Some None
    | Some auth_header =>
        match nth_error (split space auth_header) 1 with
        | Some token => Some (Some token)
        | None => None                       (* IndexError *)
        end
    end in
  match token with
  | None => (Failure 401 "Invalid token format", s)
  | Some None | Some (Some EmptyString) => (Failure 401 "Token is missing", s)
  | Some (Some token) =>
      (* Decode token *)
      match jwt_decode token with
      | Decoded payload =>
          match payload_user_id payload with
          | None => (InternalError, s)       (* KeyError, not caught *)
          | Some user_id =>
              match get_account user_id accounts with
              | None => (Failure 401 "Invalid user", s)
              | Some current_user =>
                  if negb (Account.is_active current_user) then
                    (Failure 401 "Invalid user", s)
                  else f current_user s
              end
          end
      | ExpiredSignatureError => (Failure 401 "Token has expired", s)
      | InvalidTokenError => (Failure 401 "Invalid token", s)
      end
  end.

(** The routes [/<booking_id>/checkin] and [/<booking_id>/checkout] as
    they are registered. *)
Definition check_in_route (jwt_decode : string -> JwtResult)
    (accounts : list Account.t) (authorization : option string)
    (now : datetime) (requested_room_id : option Z) (booking_id : Z)
    (s : Store) : Response BookingBody * Store :=
  token_required jwt_decode accounts authorization
    (fun current_user => check_in now requested_room_id booking_id) s.

Definition check_out_route (jwt_decode : string -> JwtResult)
    (accounts : list Account.t) (authorization : option string)
    (now : datetime) (booking_id : Z) (s : Store)
    : Response BookingBody * Store :=
  token_required jwt_decode accounts authorization
    (fun current_user => check_out now booking_id) s.

(** A string without a space. *)
Definition no_space (s : string) : Prop :=
  ~ In space (list_ascii_of_string s).

(** A decoder that knows one token, and the account it names. *)
Definition demo_decode (token : string) : JwtResult :=
  if String.eqb token "header.claims.signature" then
    Decoded (mkPayload (Some 1) (Some "refresh"))
  else InvalidTokenError.

Definition demo_accounts : list Account.t :=
  [Account.mk
     (User.mk 1 "desk@example.org" "Dee" "Desk" "0722" None FRONT_DESK)
     None (Some 1) true None].

(** * Properties *)

(** ** The overlap test *)

Lemma date_filter_proper (b_check_in b_check_out check_in check_out : date) :
  b_check_in < b_check_out ->
  check_in < check_out ->
  date_filter b_check_in b_check_out check_in check_out
  = overlaps b_check_in b_check_out check_in check_out.
Proof.
  intros Hb Hs. unfold date_filter, overlaps.
  repeat match goal with
         | |- context [?x <=? ?y] => destruct (Z.leb_spec x y)
         | |- context [?x <? ?y] => destruct (Z.ltb_spec x y)
         end; simpl; try reflexivity; lia.
Qed.

(** C2. On ranges with [check_in < check_out] on both sides, the three-way
    test of the booked-rooms query decides the same as the single predicate
    [booking.check_in < check_out and check_in < booking.check_out]; ranges
    that only touch (the check-out day of one is the check-in day of the
    other) are not overlapping under either form. *)
Theorem date_filter_is_overlaps (b_check_in b_check_out check_in check_out : date) :
  b_check_in < b_check_out ->
  check_in < check_out ->
  date_filter b_check_in b_check_out check_in check_out
    = overlaps b_check_in b_check_out check_in check_out
  /\ (b_check_out = check_in ->
      date_filter b_check_in b_check_out check_in check_out = false
      /\ overlaps b_check_in b_check_out check_in check_out = false)
  /\ (b_check_in = check_out ->
      date_filter b_check_in b_check_out check_in check_out = false
      /\ overlaps b_check_in b_check_out check_in check_out = false).
Proof.
  intros Hb Hs.
  pose proof (date_filter_proper _ _ _ _ Hb Hs) as Heq.
  split; [exact Heq |].
  assert (Htouch : b_check_out = check_in \/ b_check_in = check_out ->
                   overlaps b_check_in b_check_out check_in check_out = false).
  { intros Ht. unfold overlaps. apply andb_false_iff.
    destruct Ht as [<- | ->]; [right | left]; apply Z.ltb_irrefl. }
  split; intros Ht; (split; [rewrite Heq |]); apply Htouch; tauto.
Qed.

Lemma date_filter_is_overlaps_witness :
  date_filter 1 5 5 8 = overlaps 1 5 5 8
  /\ (5 = 5 -> date_filter 1 5 5 8 = false /\ overlaps 1 5 5 8 = false)
  /\ (1 = 8 -> date_filter 1 5 5 8 = false /\ overlaps 1 5 5 8 = false).
Proof. apply (date_filter_is_overlaps 1 5 5 8); lia. Defined.

(** ** The cancellation policy *)

Lemma fix_small (d : Decimal.t) :
  Z.abs (Decimal.coef d) < 10 ^ Decimal.prec -> Decimal.fix_ d = d.
Proof.
  intros H. unfold Decimal.fix_.
  destruct (Z.ltb_spec (Z.abs (Decimal.coef d)) (10 ^ Decimal.prec));
    [reflexivity | lia].
Qed.

Lemma mul_half_numeric (c : Z) :
  Z.abs c < 10 ^ 10 ->
  Decimal.mul (Decimal.mk c (-2)) Decimal.half = Decimal.mk (c * 5) (-3).
Proof.
  intros H. unfold Decimal.mul, Decimal.half. cbn [Decimal.coef Decimal.exp].
  rewrite fix_small; [reflexivity |].
  cbn [Decimal.coef]. unfold Decimal.prec. lia.
Qed.

(** Normalisation of decimal expressions on two- and three-place amounts
    whose coefficients stay within the context precision. *)
Ltac dec_norm :=
  repeat first
    [ progress cbn [Decimal.coef Decimal.exp Decimal.neg]
    | progress change (Z.min (-2) (-2)) with (-2)
    | progress change (Z.min (-2) (-3)) with (-3)
    | progress change (Z.min (-3) (-2)) with (-3)
    | progress change (Z.min (-3) (-3)) with (-3)
    | progress change (-2 - -2) with 0
    | progress change (-2 - -3) with 1
    | progress change (-3 - -3) with 0
    | progress change (10 ^ 0) with 1
    | progress change (10 ^ 1) with 10
    | match goal with
      | |- context [Decimal.fix_ (Decimal.mk ?x ?y)] =>
          rewrite (fix_small (Decimal.mk x y))
            by (cbn [Decimal.coef]; unfold Decimal.prec;
                change (10 ^ 28) with 10000000000000000000000000000; lia)
      end ].

(** C3. The cancellation charge is 0 from two days before check-in on
    ([days_until_checkin >= 2], so also at exactly 2), half of the total
    amount when [0 <= days_until_checkin < 2] (so at 1 and at 0), and the
    total amount when [days_until_checkin < 0] (so at -1).  With
    [refund = total - charge], for every amount of the [Numeric(10, 2)]
    column [refund + charge == total] holds exactly, and the refund of a
    non-negative amount is not negative. *)
Theorem cancellation_policy (check_in : date) (total : Decimal.t) (now : datetime) :
  Decimal.numeric_10_2 total ->
  let days_until_checkin := check_in - utc_date now in
  let charge := Booking.cancellation_charge (Some check_in) total now in
  let refund := Decimal.sub total charge in
  (2 <= days_until_checkin -> charge = Decimal.zero_00)
  /\ (0 <= days_until_checkin < 2 ->
      charge = Decimal.mul total Decimal.half
      /\ Decimal.eqb (Decimal.add charge charge) total = true)
  /\ (days_until_checkin < 0 -> charge = total)
  /\ Decimal.eqb (Decimal.add refund charge) total = true
  /\ (Decimal.ltb total Decimal.zero_00 = false ->
      Decimal.ltb refund Decimal.zero_00 = false).
Proof.
  intros [He Hc] days charge refund.
  destruct total as [c e]. cbn [Decimal.coef Decimal.exp] in He, Hc. subst e.
  change (10 ^ 10) with 10000000000 in Hc.
  subst refund charge. unfold Booking.cancellation_charge.
  fold days.
  destruct (Z.leb_spec 2 days) as [H2 | H2];
    [| destruct (Z.leb_spec 0 days) as [H0 | H0]].
  - repeat split; try lia; try reflexivity.
    + unfold Decimal.sub, Decimal.add, Decimal.eqb, Decimal.zero_00. dec_norm.
      apply Z.eqb_eq. lia.
    + unfold Decimal.sub, Decimal.add, Decimal.ltb, Decimal.zero_00. dec_norm.
      intros H. apply Z.ltb_ge. apply Z.ltb_ge in H. lia.
  - rewrite mul_half_numeric by exact Hc.
    repeat split; try lia; try reflexivity.
    + unfold Decimal.add, Decimal.eqb. dec_norm. apply Z.eqb_eq. lia.
    + unfold Decimal.sub, Decimal.add, Decimal.eqb. dec_norm. apply Z.eqb_eq. lia.
    + unfold Decimal.sub, Decimal.add, Decimal.ltb, Decimal.zero_00. dec_norm.
      intros H. apply Z.ltb_ge. apply Z.ltb_ge in H. lia.
  - repeat split; try lia; try reflexivity.
    + unfold Decimal.sub, Decimal.add, Decimal.eqb. dec_norm. apply Z.eqb_eq. lia.
    + unfold Decimal.sub, Decimal.add, Decimal.ltb, Decimal.zero_00. dec_norm.
      intros H. apply Z.ltb_ge. lia.
Qed.

Lemma cancellation_policy_witness :
  let total := Decimal.mk 10001 (-2) in
  let now := 19783 * 86400 + 3600 in
  let charge := Booking.cancellation_charge (Some 19784) total now in
  Decimal.numeric_10_2 total
  /\ charge = Decimal.mk 50005 (-3)
  /\ Decimal.eqb (Decimal.add (Decimal.sub total charge) charge) total = true.
Proof.
  assert (H : Decimal.numeric_10_2 (Decimal.mk 10001 (-2)))
    by (split; [reflexivity | vm_compute; reflexivity]).
  cbv zeta. split; [exact H |]. split; [reflexivity |].
  exact (proj1 (proj2 (proj2 (proj2
    (cancellation_policy 19784 (Decimal.mk 10001 (-2))
       (19783 * 86400 + 3600) H))))).
Defined.

(** ** The availability search *)

Lemma available_types_loop_flat_map s hotel_id check_in check_out rts acc :
  available_types_loop s hotel_id check_in check_out rts acc
  = acc ++ flat_map (loop_entry s hotel_id check_in check_out) rts.
Proof.
  revert acc. induction rts as [| rt rts IH]; intros acc; simpl.
  - by rewrite app_nil_r.
  - unfold loop_entry at 1.
    destruct (0 <? _); rewrite IH; simpl; [by rewrite <- app_assoc | done].
Qed.









(** ** Creation *)

(** C6, on the code: [create_booking] has none of the three guards.  A stay
    of no night and a party larger than the room type's occupancy are both
    stored as PENDING bookings and answered 201; the route reads no clock,
    so a check-in date in the past is as good as any. *)
Theorem create_booking_unguarded :
  cd_check_out_date zero_night_request <= cd_check_in_date zero_night_request
  /\ RoomType.max_occupancy standard < cd_num_guests crowded_request
  /\ (exists body s' b,
        create_booking "BK20240227A1B2C3" 1 1 zero_night_request demo_store
          = (Success 201 body, s')
        /\ bookings s' !! 1 = Some b
        /\ Booking.status b = PENDING
        /\ Booking.check_out_date b = Booking.check_in_date b)
  /\ (exists body s' b,
        create_booking "BK20240227A1B2C3" 1 1 crowded_request demo_store
          = (Success 201 body, s')
        /\ bookings s' !! 1 = Some b
        /\ Booking.status b = PENDING
        /\ Booking.num_guests b = 5).
Proof.
  split; [vm_compute; discriminate |].
  split; [reflexivity |].
  split; do 3 eexists; (split; [vm_compute; reflexivity |]);
    (split; [vm_compute; reflexivity |]); split; reflexivity.
Qed.

(** The two outcomes of [create_booking]: a rollback, or the booking stored
    under the key drawn for it, with the guest it goes to. *)
Lemma create_booking_outcome (booking_number : string)
    (user_id booking_id : Z) (data : CreateData) (s : Store) :
  create_booking booking_number user_id booking_id data s = (InternalError, s)
  \/ exists guest_id users' b,
       create_booking booking_number user_id booking_id data s
       = (Success 201
            (mkBookingBody "Booking created successfully" (Booking.to_dict b)),
          set_bookings (<[booking_id := b]> (bookings s)) (set_users users' s))
       /\ b = Booking.mk booking_id booking_number (cd_hotel_id data) guest_id
                None (cd_room_type_id data) (cd_check_in_date data)
                (cd_check_out_date data) None None (cd_num_guests data)
                (cd_special_requests data)
                (Decimal.to_scale_2 (cd_total_amount data))
                (default "USD" (cd_currency data)) PENDING None None None None
                false
       /\ bookings s !! booking_id = None
       /\ match List.find
                 (fun u => String.eqb (User.email u) (cd_guest_email data))
                 (users s) with
          | Some guest => users' = users s /\ guest_id = User.id guest
          | None =>
              users'
              = users s
                  ++ [User.mk user_id (cd_guest_email data)
                        (cd_guest_first_name data) (cd_guest_last_name data)
                        (cd_guest_phone data) (cd_guest_id_number data)
                        FRONT_DESK]
              /\ guest_id = user_id
              /\ forall u, In u (users s) -> User.id u <> user_id
          end.
Proof.
  assert (Hfresh : forall b, create_integrity s b = true ->
                             bookings s !! Booking.id b = None).
  { intros b Hi. unfold create_integrity in Hi.
    rewrite !andb_true_iff in Hi.
    destruct Hi as [[[[[[[Hi _] _] _] _] _] _] _].
    by apply bool_decide_eq_true in Hi. }
  unfold create_booking.
  destruct (List.find _ (users s)) as [guest |].
  - cbn zeta beta iota.
    destruct (create_integrity s _) eqn:Hi; [| by left].
    right. do 3 eexists. split; [reflexivity |]. split; [reflexivity |].
    split; [exact (Hfresh _ Hi) | done].
  - destruct (user_integrity s _) eqn:Hu; [| by left].
    cbn zeta beta iota.
    destruct (create_integrity s _) eqn:Hi; [| by left].
    right. do 3 eexists. split; [reflexivity |]. split; [reflexivity |].
    split; [exact (Hfresh _ Hi) |]. split; [reflexivity |].
    split; [reflexivity |].
    intros u Hin Heq. unfold user_integrity in Hu.
    rewrite !andb_true_iff in Hu.
    destruct Hu as [[[[[Hu _] _] _] _] _].
    rewrite forallb_forall in Hu. specialize (Hu u Hin).
    cbn [User.id] in Hu. apply negb_true_iff, Z.eqb_neq in Hu. done.
Qed.

(** ** Confirmation *)

(** C4, on the code: [confirm_booking] does not look at the status.  A
    CANCELLED booking is confirmed, and so is a booking that is already
    CONFIRMED; both requests are answered 200. *)
Theorem confirm_booking_unguarded :
  Booking.status <$> bookings cancelled_store !! 1 = Some CANCELLED
  /\ (exists body s',
        confirm_booking 1 cancelled_store = (Success 200 body, s')
        /\ Booking.status <$> bookings s' !! 1 = Some CONFIRMED)
  /\ Booking.status <$> bookings confirmed_store !! 1 = Some CONFIRMED
  /\ (exists body s',
        confirm_booking 1 confirmed_store = (Success 200 body, s')
        /\ Booking.status <$> bookings s' !! 1 = Some CONFIRMED).
Proof.
  split; [vm_compute; reflexivity |].
  split; [do 2 eexists; split; vm_compute; reflexivity |].
  split; [vm_compute; reflexivity |].
  do 2 eexists; split; vm_compute; reflexivity.
Qed.

(** Whatever the status, an existing booking is confirmed. *)
Lemma confirm_booking_any_status (booking_id : Z) (s : Store) (b : Booking.t) :
  bookings s !! booking_id = Some b ->
  confirm_booking booking_id s
  = (Success 200
       (mkBookingBody "Booking confirmed"
          (Booking.to_dict (Booking.set_status CONFIRMED b))),
     set_bookings
       (<[booking_id := Booking.set_status CONFIRMED b]> (bookings s)) s).
Proof. intros H. unfold confirm_booking. by rewrite H. Qed.

(** ** Rows of the rooms table *)

Lemma clean_room_filter_candidate (b : Booking.t) (r : Room.t) :
  clean_room_filter b r = true <-> candidate_room b r.
Proof.
  unfold clean_room_filter, candidate_room.
  rewrite !andb_true_iff, negb_true_iff, !Z.eqb_eq, bool_decide_eq_true.
  tauto.
Qed.

Lemma find_no_match {A} (f : A -> bool) (l : list A) :
  (forall x, In x l -> f x = false) -> List.find f l = None.
Proof.
  induction l as [| x l IH]; intros H; simpl; [done |].
  rewrite (H x) by (by left). apply IH. intros y Hy. apply H. by right.
Qed.

Lemma find_first_match {A} (f : A -> bool) (pre post : list A) (x : A) :
  f x = true -> (forall y, In y pre -> f y = false) ->
  List.find f (pre ++ x :: post) = Some x.
Proof.
  intros Hx. induction pre as [| y pre IH]; intros H; simpl.
  - by rewrite Hx.
  - rewrite (H y) by (by left). apply IH. intros z Hz. apply H. by right.
Qed.

Lemma get_room_id (room_id : Z) (l : list Room.t) (r : Room.t) :
  get_room room_id l = Some r -> Room.id r = room_id.
Proof. intros H. apply find_some in H as [_ H]. by apply Z.eqb_eq. Qed.

Lemma get_room_middle (pre post : list Room.t) (r : Room.t) :
  NoDup (List.map Room.id (pre ++ r :: post)) ->
  get_room (Room.id r) (pre ++ r :: post) = Some r.
Proof.
  intros Hnd. apply find_first_match; [apply Z.eqb_refl |].
  intros y Hy. apply Z.eqb_neq. intros Heq.
  rewrite map_app in Hnd. cbn [List.map] in Hnd.
  apply NoDup_app in Hnd as (_ & Hdisj & _).
  apply (Hdisj (Room.id y)).
  - apply list_elem_of_In, in_map, Hy.
  - rewrite Heq. apply list_elem_of_here.
Qed.

Lemma update_room_middle (f : Room.t -> Room.t) (pre post : list Room.t)
    (r : Room.t) :
  NoDup (List.map Room.id (pre ++ r :: post)) ->
  update_room (Room.id r) f (pre ++ r :: post) = pre ++ f r :: post.
Proof.
  induction pre as [| y pre IH]; intros Hnd; simpl.
  - by rewrite Z.eqb_refl.
  - simpl in Hnd. apply NoDup_cons in Hnd as [Hy Hnd].
    destruct (Z.eqb_spec (Room.id y) (Room.id r)) as [Heq | _].
    + exfalso. apply Hy. rewrite Heq, map_app. cbn [List.map].
      apply elem_of_app. right. apply list_elem_of_here.
    + by rewrite IH.
Qed.

Lemma get_room_update_eq (f : Room.t -> Room.t) (room_id : Z)
    (l : list Room.t) (r : Room.t) :
  (forall x, Room.id (f x) = Room.id x) ->
  get_room room_id l = Some r ->
  get_room room_id (update_room room_id f l) = Some (f r).
Proof.
  intros Hf. unfold get_room.
  induction l as [| y l IH]; simpl; [done |].
  destruct (Z.eqb_spec (Room.id y) room_id) as [Heq | Hne]; simpl.
  - intros [= ->]. by rewrite Hf, Heq, Z.eqb_refl.
  - intros H. destruct (Z.eqb_spec (Room.id y) room_id); [done | by apply IH].
Qed.

Lemma get_room_update_ne (f : Room.t -> Room.t) (room_id room_id' : Z)
    (l : list Room.t) :
  (forall x, Room.id (f x) = Room.id x) ->
  room_id' <> room_id ->
  get_room room_id' (update_room room_id f l) = get_room room_id' l.
Proof.
  intros Hf Hne. unfold get_room.
  induction l as [| y l IH]; simpl; [done |].
  destruct (Z.eqb_spec (Room.id y) room_id) as [Heq | Hne']; simpl.
  - rewrite Hf.
    destruct (Z.eqb_spec (Room.id y) room_id'); [congruence | done].
  - by rewrite IH.
Qed.

Lemma next_task_id_fresh (s : Store) (t : HousekeepingTask.t) :
  In t (housekeeping_tasks s) -> HousekeepingTask.id t < next_task_id s.
Proof.
  unfold next_task_id.
  induction (housekeeping_tasks s) as [| x l IH]; [done |].
  cbn [fold_right]. intros [<- | Hin]; [lia |].
  specialize (IH Hin). lia.
Qed.

(** ** Check-in *)

(** C7 fails as stated: with rooms 102 and 101 both ready, in that row
    order, the booking is given room 102 although room 101 has the smaller
    number. *)
Lemma check_in_not_lowest_numbered :
  exists b,
    bookings confirmed_store !! 1 = Some b
    /\ Booking.status b = CONFIRMED
    /\ Booking.room_id b = None
    /\ lowest_numbered b confirmed_store room_101
    /\ Booking.room_id <$> bookings (check_in demo_now None 1 confirmed_store).2 !! 1
       = Some (Some (Room.id room_102))
    /\ ~ lowest_numbered b confirmed_store room_102.
Proof.
  eexists. split; [vm_compute; reflexivity |].
  split; [reflexivity |]. split; [reflexivity |].
  split; [| split; [vm_compute; reflexivity |]].
  - split; [right; left; reflexivity |].
    split; [by repeat split |].
    intros r' [<- | [<- | []]] _; reflexivity.
  - intros (_ & _ & H).
    specialize (H room_101 (or_intror (or_introl eq_refl))).
    assert (Hc : String.leb (Room.room_number room_102)
                   (Room.room_number room_101) = false) by reflexivity.
    rewrite Hc in H. discriminate H. by repeat split.
Qed.

(** C7, amended.  For a CONFIRMED booking with no
    room assigned and no room requested, check-in takes the first row the
    store yields among the rooms of the booking's property and room type
    that are CLEAN_READY and not soft-deleted (no order on room numbers is
    applied).  Without such a row it answers 400 "No clean rooms available"
    and changes nothing; with one, the booking becomes CHECKED_IN with that
    room assigned and [actual_check_in = now], the status of that room
    becomes OCCUPIED, its other columns and the other rooms stay as they
    were, and no other table changes. *)
Theorem check_in_auto_assigns_first_row (now : datetime) (booking_id : Z)
    (s : Store) (b : Booking.t) :
  bookings s !! booking_id = Some b ->
  Booking.status b = CONFIRMED ->
  Booking.room_id b = None ->
  rooms_pk_unique s ->
  ((forall r, In r (rooms s) -> ~ candidate_room b r) ->
   check_in now None booking_id s
   = (Failure 400 "No clean rooms available", s))
  /\ (forall pre room post,
        rooms s = pre ++ room :: post ->
        candidate_room b room ->
        (forall r, In r pre -> ~ candidate_room b r) ->
        let b' :=
          Booking.set_actual_check_in (Some now)
            (Booking.set_status CHECKED_IN
               (Booking.set_room_id (Some (Room.id room)) b)) in
        let room' :=
          Room.mk (Room.id room) (Room.hotel_id room) (Room.room_type_id room)
            (Room.room_number room) OCCUPIED (Room.deleted_at room)
            (Room.is_deleted room) in
        exists s',
          check_in now None booking_id s
          = (Success 200
               (mkBookingBody "Check-in successful" (Booking.to_dict b')), s')
          /\ Booking.status b' = CHECKED_IN
          /\ Booking.room_id b' = Some (Room.id room)
          /\ Booking.actual_check_in b' = Some now
          /\ bookings s' = <[booking_id := b']> (bookings s)
          /\ get_room (Room.id room) (rooms s') = Some room'
          /\ Room.status room' = OCCUPIED
          /\ rooms s' ≡ₚ pre ++ room' :: post
          /\ hotels s' = hotels s
          /\ users s' = users s
          /\ room_types s' = room_types s
          /\ housekeeping_tasks s' = housekeeping_tasks s).
Proof.
  intros Hb Hst Hroom Hpk.
  assert (Hguard : bool_decide (Booking.status b = CONFIRMED) = true)
    by (by apply bool_decide_eq_true).
  split.
  - intros Hnone. unfold check_in. rewrite Hb, Hguard. cbn [negb].
    unfold assign_room. rewrite Hroom. cbn [falsy].
    rewrite find_no_match; [reflexivity |].
    intros r Hr. apply not_true_is_false.
    rewrite clean_room_filter_candidate. by apply Hnone.
  - intros pre room post Hrows Hcand Hpre b' room'.
    unfold check_in. rewrite Hb, Hguard. cbn [negb].
    unfold assign_room. rewrite Hroom. cbn [falsy].
    unfold rooms_pk_unique in Hpk. rewrite Hrows in Hpk |- *.
    rewrite find_first_match.
    + cbn [fmap option_fmap option_map].
      rewrite get_room_middle by exact Hpk.
      rewrite update_room_middle by exact Hpk.
      eexists. split; [reflexivity |].
      cbn [bookings rooms hotels users room_types housekeeping_tasks
           set_rooms set_bookings].
      change (Room.set_status OCCUPIED room) with room'.
      repeat split; [| reflexivity].
      change (Room.id room) with (Room.id room').
      apply get_room_middle.
      rewrite map_app in Hpk |- *. exact Hpk.
    + by apply clean_room_filter_candidate.
    + intros r Hr. apply not_true_is_false.
      rewrite clean_room_filter_candidate. by apply Hpre.
Qed.

Lemma check_in_auto_assigns_first_row_witness :
  exists b' room' s',
    check_in demo_now None 1 confirmed_store
    = (Success 200 (mkBookingBody "Check-in successful" (Booking.to_dict b')),
       s')
    /\ Booking.room_id b' = Some 1
    /\ get_room 1 (rooms s') = Some room'
    /\ Room.status room' = OCCUPIED
    /\ Room.room_number room' = "102".
Proof.
  assert (Hb : exists b, bookings confirmed_store !! 1 = Some b
                         /\ Booking.status b = CONFIRMED
                         /\ Booking.room_id b = None)
    by (eexists; split; [vm_compute; reflexivity | split; reflexivity]).
  destruct Hb as (b & Hb & Hst & Hroom).
  assert (Hpk : rooms_pk_unique confirmed_store).
  { unfold rooms_pk_unique. change (NoDup [1; 2]).
    repeat constructor; rewrite ?elem_of_cons, ?elem_of_nil; intuition lia. }
  assert (Hcand : candidate_room b room_102).
  { assert (Hb' := Hb). vm_compute in Hb'. injection Hb' as <-.
    by repeat split. }
  destruct (proj2 (check_in_auto_assigns_first_row demo_now 1 confirmed_store
                     b Hb Hst Hroom Hpk)
              [] room_102 [room_101] eq_refl Hcand
              (fun r (H : In r []) => False_ind _ H))
    as (s' & Heq & _ & Hr & _ & _ & Hg & Ho & _).
  do 3 eexists. split; [exact Heq |]. split; [exact Hr |].
  split; [exact Hg |]. split; [exact Ho | reflexivity].
Defined.

(** ** Check-out *)

(** C8.  Check-out of a CHECKED_IN booking sets
    its status to CHECKED_OUT and [actual_check_out] to [now], sets the
    status of the assigned room to VACANT_DIRTY, leaves the other columns
    of that room and the other rooms alone, and adds exactly one
    housekeeping task, under a key no task had, for that room, with task
    type "cleaning", priority "normal" and status "pending".  From any
    other status it answers 400 "Guest is not checked in" and changes
    nothing. *)
Theorem check_out_effects (now : datetime) (booking_id : Z) (s : Store)
    (b : Booking.t) :
  bookings s !! booking_id = Some b ->
  (Booking.status b = CHECKED_IN ->
   forall room_id room,
     Booking.room_id b = Some room_id ->
     get_room room_id (rooms s) = Some room ->
     let b' :=
       Booking.set_actual_check_out (Some now)
         (Booking.set_status CHECKED_OUT b) in
     let room' :=
       Room.mk room_id (Room.hotel_id room) (Room.room_type_id room)
         (Room.room_number room) VACANT_DIRTY (Room.deleted_at room)
         (Room.is_deleted room) in
     exists s',
       check_out now booking_id s
       = (Success 200
            (mkBookingBody "Check-out successful" (Booking.to_dict b')), s')
       /\ bookings s' = <[booking_id := b']> (bookings s)
       /\ Booking.status b' = CHECKED_OUT
       /\ Booking.actual_check_out b' = Some now
       /\ get_room room_id (rooms s') = Some room'
       /\ Room.status room' = VACANT_DIRTY
       /\ (forall room_id', room_id' <> room_id ->
             get_room room_id' (rooms s') = get_room room_id' (rooms s))
       /\ housekeeping_tasks s'
          = housekeeping_tasks s
              ++ [HousekeepingTask.mk (next_task_id s) room_id None
                    "cleaning" "normal" "pending"]
       /\ (forall t, In t (housekeeping_tasks s) ->
             HousekeepingTask.id t <> next_task_id s))
  /\ (Booking.status b <> CHECKED_IN ->
      check_out now booking_id s = (Failure 400 "Guest is not checked in", s)).
Proof.
  intros Hb. split.
  - intros Hst room_id room Hrid Hroom b' room'.
    unfold check_out. rewrite Hb.
    rewrite (bool_decide_eq_true_2 _ Hst). cbn [negb].
    unfold booking_room. rewrite Hrid, Hroom.
    cbn [fmap option_fmap option_map].
    eexists. split; [reflexivity |].
    cbn [bookings rooms housekeeping_tasks set_housekeeping_tasks set_rooms
         set_bookings].
    pose proof (get_room_id _ _ _ Hroom) as Hid. rewrite Hid.
    repeat split.
    + rewrite (get_room_update_eq (Room.set_status VACANT_DIRTY) room_id
                 (rooms s) room (fun x => eq_refl) Hroom).
      unfold Room.set_status, room'. by rewrite Hid.
    + intros room_id' Hne. by apply get_room_update_ne.
    + intros t Ht. pose proof (next_task_id_fresh s t Ht). lia.
  - intros Hst. unfold check_out. rewrite Hb.
    by rewrite (bool_decide_eq_false_2 _ Hst).
Qed.

Lemma check_out_effects_witness :
  exists s' room',
    (check_out (demo_now + 2 * 86400) 1 checked_in_store).2 = s'
    /\ get_room 1 (rooms s') = Some room'
    /\ Room.status room' = VACANT_DIRTY
    /\ Room.room_number room' = "102"
    /\ housekeeping_tasks s'
       = [HousekeepingTask.mk 1 1 None "cleaning" "normal" "pending"].
Proof.
  assert (Hb : exists b, bookings checked_in_store !! 1 = Some b
                         /\ Booking.status b = CHECKED_IN
                         /\ Booking.room_id b = Some 1)
    by (eexists; split; [vm_compute; reflexivity | split; reflexivity]).
  destruct Hb as (b & Hb & Hst & Hrid).
  assert (Hroom : get_room 1 (rooms checked_in_store)
                  = Some (Room.set_status OCCUPIED room_102))
    by (vm_compute; reflexivity).
  destruct (proj1 (check_out_effects (demo_now + 2 * 86400) 1 checked_in_store
                     b Hb) Hst 1 _ Hrid Hroom)
    as (s' & Heq & _ & _ & _ & Hr & Hv & _ & Ht & _).
  exists s'. eexists. split; [by rewrite Heq |]. split; [exact Hr |].
  split; [exact Hv |]. split; [reflexivity | exact Ht].
Defined.

(** ** Cancellation *)

(** C5 fails as stated: the cancellation of a CHECKED_IN booking
    succeeds. *)
Lemma cancel_checked_in_succeeds :
  ~ (forall b,
       bookings checked_in_store !! 1 = Some b ->
       (exists body s',
          cancel_booking (demo_now + 86400) None 1 checked_in_store
          = (Success 200 body, s')) ->
       Booking.status b = PENDING \/ Booking.status b = CONFIRMED).
Proof.
  intros H.
  assert (Hb : exists b, bookings checked_in_store !! 1 = Some b
                         /\ Booking.status b = CHECKED_IN)
    by (eexists; split; [vm_compute; reflexivity | reflexivity]).
  destruct Hb as (b & Hb & Hst).
  destruct (H b Hb) as [H' | H']; [| congruence..].
  do 2 eexists. vm_compute. reflexivity.
Qed.

(** What the [refund_amount] column keeps of the refund of a stored amount:
    the amount, half of it with half a cent rounded away from zero, or
    nothing, by the band of the cancellation policy; the value is within
    the range of the column. *)
Lemma refund_to_scale_2 (check_in : date) (cents : Z) (now : datetime) :
  Z.abs cents < 10 ^ 10 ->
  let total := Decimal.mk cents (-2) in
  let days_until_checkin := check_in - utc_date now in
  let refund :=
    Decimal.sub total (Booking.cancellation_charge (Some check_in) total now) in
  Decimal.numeric_10_2 (Decimal.to_scale_2 refund)
  /\ (2 <= days_until_checkin ->
      Decimal.to_scale_2 refund = Decimal.mk cents (-2))
  /\ (0 <= days_until_checkin < 2 ->
      Decimal.to_scale_2 refund
      = Decimal.mk (Z.sgn cents * ((Z.abs cents + 1) / 2)) (-2))
  /\ (days_until_checkin < 0 ->
      Decimal.to_scale_2 refund = Decimal.mk 0 (-2)).
Proof.
  intros Hc total days refund.
  change (10 ^ 10) with 10000000000 in Hc.
  subst refund total. unfold Booking.cancellation_charge. fold days.
  unfold Decimal.numeric_10_2.
  change (10 ^ 10) with 10000000000.
  destruct (Z.leb_spec 2 days) as [H2 | H2];
    [| destruct (Z.leb_spec 0 days) as [H0 | H0]].
  - unfold Decimal.sub, Decimal.add, Decimal.zero_00. dec_norm.
    unfold Decimal.to_scale_2. cbn [Decimal.coef Decimal.exp].
    change (-2 <=? -2) with true. cbn iota.
    change (10 ^ (-2 + 2)) with 1.
    replace ((cents * 1 + - 0 * 1) * 1) with cents by lia.
    cbn [Decimal.coef Decimal.exp].
    repeat split; try lia; intros; lia.
  - rewrite mul_half_numeric by (change (10 ^ 10) with 10000000000; exact Hc).
    unfold Decimal.sub, Decimal.add. dec_norm.
    unfold Decimal.to_scale_2. cbn [Decimal.coef Decimal.exp].
    change (-2 <=? -3) with false. cbn iota.
    change (-2 - -3) with 1. change (10 ^ 1) with 10.
    change (5 * 10 ^ (1 - 1)) with 5.
    replace (cents * 10 + - (cents * 5) * 1) with (5 * cents) by lia.
    assert (Hn : Z.abs (5 * cents) = 10 * (Z.abs cents / 2)
                                     + 5 * (Z.abs cents mod 2)).
    { pose proof (Z.div_mod (Z.abs cents) 2). lia. }
    pose proof (Z.mod_pos_bound (Z.abs cents) 2) as Hm.
    assert (Hq : Z.abs (5 * cents) / 10 = Z.abs cents / 2).
    { symmetry. apply (Z.div_unique _ _ _ (5 * (Z.abs cents mod 2))); lia. }
    assert (Hr : Z.abs (5 * cents) mod 10 = 5 * (Z.abs cents mod 2)).
    { symmetry. apply (Z.mod_unique _ _ (Z.abs cents / 2)); lia. }
    rewrite Hq, Hr.
    assert (Hh : (Z.abs cents + 1) / 2
                 = Z.abs cents / 2 + Z.abs cents mod 2).
    { symmetry.
      apply (Z.div_unique _ _ _ (1 - Z.abs cents mod 2)); [lia |].
      pose proof (Z.div_mod (Z.abs cents) 2). lia. }
    assert (Hs : Z.sgn (5 * cents) = Z.sgn cents) by lia.
    assert (Hv : (if 5 <=? 5 * (Z.abs cents mod 2)
                  then Z.abs cents / 2 + 1 else Z.abs cents / 2)
                 = (Z.abs cents + 1) / 2).
    { rewrite Hh. destruct (Z.leb_spec 5 (5 * (Z.abs cents mod 2))); lia. }
    rewrite Hv, Hs. cbn [Decimal.coef Decimal.exp].
    assert (Hb : 0 <= (Z.abs cents + 1) / 2 <= Z.abs cents).
    { rewrite Hh. pose proof (Z.div_mod (Z.abs cents) 2).
      assert (0 <= Z.abs cents / 2) by (apply Z.div_pos; lia). lia. }
    repeat split; try lia; intros; lia.
  - unfold Decimal.sub, Decimal.add. dec_norm.
    unfold Decimal.to_scale_2. cbn [Decimal.coef Decimal.exp].
    change (-2 <=? -2) with true. cbn iota.
    change (10 ^ (-2 + 2)) with 1.
    replace ((cents * 1 + - cents * 1) * 1) with 0 by lia.
    cbn [Decimal.coef Decimal.exp].
    repeat split; try lia; intros; lia.
Qed.

(** C5, amended.  The cancellation of an existing booking succeeds if and
    only if the booking is not already CANCELLED (so also from CHECKED_IN
    and CHECKED_OUT): it sets the status to CANCELLED and records the
    timestamp, the reason and the refund [total_amount - charge] of the
    cancellation policy at the two decimal places of the [refund_amount]
    column (the whole amount, half of it with half a cent rounded away from
    zero, or nothing), answers with the charge and the refund as computed,
    and touches no other booking, room or task.  On a CANCELLED booking it
    answers 400 "Booking already cancelled" and changes nothing. *)
Theorem cancel_booking_effects (now : datetime) (reason : option string)
    (booking_id : Z) (s : Store) (b : Booking.t) :
  bookings s !! booking_id = Some b ->
  (Booking.status b <> CANCELLED ->
   let charge := Booking.calculate_cancellation_charge b now in
   let refund := Decimal.sub (Booking.total_amount b) charge in
   exists b',
     cancel_booking now reason booking_id s
     = (Success 200
          (mkCancelBody "Booking cancelled" charge refund (Booking.to_dict b')),
        set_bookings (<[booking_id := b']> (bookings s)) s)
     /\ Booking.status b' = CANCELLED
     /\ Booking.cancelled_at b' = Some now
     /\ Booking.cancellation_reason b' = reason
     /\ Booking.refund_amount b' = Some (Decimal.to_scale_2 refund)
     /\ Booking.room_id b' = Booking.room_id b
     /\ Booking.total_amount b' = Booking.total_amount b
     /\ (Decimal.numeric_10_2 (Booking.total_amount b) ->
         let days_until_checkin := Booking.check_in_date b - utc_date now in
         let cents := Decimal.coef (Booking.total_amount b) in
         Decimal.numeric_10_2 (Decimal.to_scale_2 refund)
         /\ (2 <= days_until_checkin ->
             Decimal.to_scale_2 refund = Decimal.mk cents (-2))
         /\ (0 <= days_until_checkin < 2 ->
             Decimal.to_scale_2 refund
             = Decimal.mk (Z.sgn cents * ((Z.abs cents + 1) / 2)) (-2))
         /\ (days_until_checkin < 0 ->
             Decimal.to_scale_2 refund = Decimal.mk 0 (-2))))
  /\ (Booking.status b = CANCELLED ->
      cancel_booking now reason booking_id s
      = (Failure 400 "Booking already cancelled", s)).
Proof.
  intros Hb. split.
  - intros Hst charge refund. unfold cancel_booking. rewrite Hb.
    rewrite (bool_decide_eq_false_2 _ Hst).
    eexists. split; [reflexivity |].
    do 6 (split; [reflexivity |]).
    intros [He Hc]. cbv zeta. subst refund charge.
    unfold Booking.calculate_cancellation_charge.
    destruct (Booking.total_amount b) as [c e].
    cbn [Decimal.coef Decimal.exp] in He, Hc |- *. subst e.
    exact (refund_to_scale_2 (Booking.check_in_date b) c now Hc).
  - intros Hst. unfold cancel_booking. rewrite Hb.
    by rewrite (bool_decide_eq_true_2 _ Hst).
Qed.

Lemma cancel_booking_effects_witness :
  exists b',
    bookings (cancel_booking (demo_now - 86400) (Some "change of plans") 1
                odd_cents_store).2 !! 1 = Some b'
    /\ Booking.status b' = CANCELLED
    /\ Booking.total_amount b' = Decimal.mk 10001 (-2)
    /\ Booking.refund_amount b' = Some (Decimal.mk 5001 (-2)).
Proof.
  assert (Hb : exists b, bookings odd_cents_store !! 1 = Some b
                         /\ Booking.status b <> CANCELLED
                         /\ Booking.total_amount b = Decimal.mk 10001 (-2)
                         /\ Booking.check_in_date b = 19783)
    by (eexists; split; [vm_compute; reflexivity |];
        split; [discriminate | split; reflexivity]).
  destruct Hb as (b & Hb & Hst & Htot & Hci).
  destruct (proj1 (cancel_booking_effects (demo_now - 86400)
                     (Some "change of plans") 1 odd_cents_store b Hb) Hst)
    as (b' & Heq & Hs & _ & _ & Hr & _ & Ht & Hn).
  exists b'. rewrite Heq. cbn [snd bookings set_bookings].
  rewrite lookup_insert_eq. split; [reflexivity |]. split; [exact Hs |].
  split; [by rewrite Ht |].
  rewrite Hr. f_equal.
  assert (Hnum : Decimal.numeric_10_2 (Booking.total_amount b))
    by (rewrite Htot; split; [reflexivity | vm_compute; reflexivity]).
  destruct (Hn Hnum) as (_ & _ & Hhalf & _).
  rewrite Hhalf; [by rewrite Htot |].
  rewrite Hci. vm_compute. split; [discriminate | reflexivity].
Defined.

(** ** Soft-deleted bookings *)

Ltac soft_delete_step s booking_id :=
  destruct s as [hs us rts rs bs ts];
  unfold carried_over, with_soft_delete, set_bookings;
  cbn [bookings hotels users room_types rooms housekeeping_tasks];
  rewrite lookup_alter_eq;
  destruct (bs !! booking_id) as [[]|];
  cbn [fmap option_fmap option_map fst snd bookings hotels users room_types
       rooms housekeeping_tasks].

Lemma confirm_booking_soft_delete (flag : bool) (at_ : option datetime)
    (booking_id : Z) (s : Store) :
  confirm_booking booking_id (with_soft_delete flag at_ booking_id s)
  = carried_over flag at_ booking_id (confirm_booking booking_id s).
Proof.
  unfold confirm_booking. soft_delete_step s booking_id; [| reflexivity].
  by rewrite insert_alter_eq, alter_insert_eq.
Qed.

Lemma cancel_booking_soft_delete (flag : bool) (at_ : option datetime)
    (now : datetime) (reason : option string) (booking_id : Z) (s : Store) :
  cancel_booking now reason booking_id (with_soft_delete flag at_ booking_id s)
  = carried_over flag at_ booking_id (cancel_booking now reason booking_id s).
Proof.
  unfold cancel_booking. soft_delete_step s booking_id; [| reflexivity].
  cbn [Booking.status Booking.set_soft_delete].
  case_bool_decide; cbn [fst snd bookings hotels users room_types rooms
                         housekeeping_tasks set_bookings];
    [reflexivity |].
  by rewrite insert_alter_eq, alter_insert_eq.
Qed.

Lemma assign_room_soft_delete (flag : bool) (at_ : option datetime)
    (requested_room_id : option Z) (b : Booking.t) (s s' : Store) :
  rooms s' = rooms s ->
  assign_room requested_room_id (Booking.set_soft_delete flag at_ b) s'
  = assign_room requested_room_id b s.
Proof. intros H. unfold assign_room. rewrite H. by destruct b. Qed.

Lemma check_in_soft_delete (flag : bool) (at_ : option datetime)
    (now : datetime) (requested_room_id : option Z) (booking_id : Z)
    (s : Store) :
  check_in now requested_room_id booking_id
    (with_soft_delete flag at_ booking_id s)
  = carried_over flag at_ booking_id
      (check_in now requested_room_id booking_id s).
Proof.
  unfold check_in, carried_over.
  change (rooms (with_soft_delete flag at_ booking_id s)) with (rooms s).
  change (bookings (with_soft_delete flag at_ booking_id s))
    with (alter (Booking.set_soft_delete flag at_) booking_id (bookings s)).
  rewrite lookup_alter_eq.
  destruct (bookings s !! booking_id) as [b |];
    cbn [fmap option_fmap option_map fst snd]; [| reflexivity].
  replace (Booking.status (Booking.set_soft_delete flag at_ b))
    with (Booking.status b) by (by destruct b).
  case_bool_decide; cbn [negb fst snd]; [| reflexivity].
  rewrite (assign_room_soft_delete _ _ _ _ s) by reflexivity.
  destruct (assign_room requested_room_id b s) as [room_id |];
    cbn [fst snd]; [| reflexivity].
  destruct (get_room room_id (rooms s)); cbn [fst snd]; [| reflexivity].
  destruct s, b. unfold with_soft_delete, set_rooms, set_bookings.
  cbn. by rewrite insert_alter_eq, alter_insert_eq.
Qed.

Lemma check_out_soft_delete (flag : bool) (at_ : option datetime)
    (now : datetime) (booking_id : Z) (s : Store) :
  check_out now booking_id (with_soft_delete flag at_ booking_id s)
  = carried_over flag at_ booking_id (check_out now booking_id s).
Proof.
  unfold check_out, carried_over, booking_room.
  change (rooms (with_soft_delete flag at_ booking_id s)) with (rooms s).
  change (bookings (with_soft_delete flag at_ booking_id s))
    with (alter (Booking.set_soft_delete flag at_) booking_id (bookings s)).
  rewrite lookup_alter_eq.
  destruct (bookings s !! booking_id) as [b |];
    cbn [fmap option_fmap option_map fst snd]; [| reflexivity].
  replace (Booking.status (Booking.set_soft_delete flag at_ b))
    with (Booking.status b) by (by destruct b).
  case_bool_decide; cbn [negb fst snd]; [| reflexivity].
  replace (Booking.room_id (Booking.set_soft_delete flag at_ b))
    with (Booking.room_id b) by (by destruct b).
  destruct (Booking.room_id b) as [room_id |];
    [destruct (get_room room_id (rooms s)) |];
    cbn [fmap option_fmap option_map];
    destruct s, b; unfold with_soft_delete, set_housekeeping_tasks,
      set_rooms, set_bookings, next_task_id;
    cbn; by rewrite insert_alter_eq, alter_insert_eq.
Qed.

Lemma with_soft_delete_restore (booking_id : Z) (s : Store) (b : Booking.t) :
  bookings s !! booking_id = Some b ->
  Booking.is_deleted b = true ->
  with_soft_delete true (Booking.deleted_at b) booking_id
    (with_soft_delete false None booking_id s) = s.
Proof.
  intros Hb Hd. destruct s as [hs us rts rs bs ts].
  unfold with_soft_delete, set_bookings. cbn in Hb |- *. f_equal.
  rewrite alter_alter_eq. apply alter_id. intros x Hx.
  rewrite Hb in Hx. injection Hx as <-. destruct b. cbn in Hd |- *.
  by rewrite Hd.
Qed.

(** C10.  Only [get_booking] looks at the soft-delete flag: it answers 404
    for a soft-deleted booking and 200 for the same booking when it is not
    deleted.  Confirmation, cancellation, check-in and check-out of a
    soft-deleted booking give the response they give for the same booking
    when it is not deleted, and leave the store they leave there, up to the
    soft-delete columns of that booking, which they carry over. *)
Theorem soft_delete_hides_only_reads (now : datetime) (reason : option string)
    (requested_room_id : option Z) (booking_id : Z) (s : Store)
    (b : Booking.t) :
  bookings s !! booking_id = Some b ->
  Booking.is_deleted b = true ->
  let live := with_soft_delete false None booking_id s in
  get_booking booking_id s = Failure 404 "Booking not found"
  /\ get_booking booking_id live = Success 200 (Booking.to_dict b)
  /\ confirm_booking booking_id s
     = carried_over true (Booking.deleted_at b) booking_id
         (confirm_booking booking_id live)
  /\ cancel_booking now reason booking_id s
     = carried_over true (Booking.deleted_at b) booking_id
         (cancel_booking now reason booking_id live)
  /\ check_in now requested_room_id booking_id s
     = carried_over true (Booking.deleted_at b) booking_id
         (check_in now requested_room_id booking_id live)
  /\ check_out now booking_id s
     = carried_over true (Booking.deleted_at b) booking_id
         (check_out now booking_id live).
Proof.
  intros Hb Hd live.
  pose proof (with_soft_delete_restore booking_id s b Hb Hd) as Hs.
  fold live in Hs.
  split; [unfold get_booking; by rewrite Hb, Hd |].
  split.
  { unfold get_booking, live, with_soft_delete. cbn [bookings set_bookings].
    rewrite lookup_alter_eq, Hb. by destruct b. }
  rewrite <- Hs at 1 2 3 4.
  by rewrite confirm_booking_soft_delete, cancel_booking_soft_delete,
    check_in_soft_delete, check_out_soft_delete.
Qed.

Lemma soft_delete_hides_only_reads_witness :
  get_booking 1 deleted_store = Failure 404 "Booking not found"
  /\ exists body s',
       check_in demo_now None 1 deleted_store = (Success 200 body, s')
       /\ Booking.status <$> bookings s' !! 1 = Some CHECKED_IN
       /\ Booking.is_deleted <$> bookings s' !! 1 = Some true.
Proof.
  assert (Hb : exists b, bookings deleted_store !! 1 = Some b
                         /\ Booking.is_deleted b = true)
    by (eexists; split; [vm_compute; reflexivity | reflexivity]).
  destruct Hb as (b & Hb & Hd).
  destruct (soft_delete_hides_only_reads demo_now None None 1 deleted_store b
              Hb Hd) as (Hget & _ & _ & _ & Hin & _).
  split; [exact Hget |].
  do 2 eexists. split; [vm_compute; reflexivity |].
  split; vm_compute; reflexivity.
Defined.

(** ** The booking-record invariant *)

Lemma get_room_update_is_Some (f : Room.t -> Room.t) (room_id room_id' : Z)
    (l : list Room.t) :
  (forall x, Room.id (f x) = Room.id x) ->
  is_Some (get_room room_id' l) ->
  is_Some (get_room room_id' (update_room room_id f l)).
Proof.
  intros Hf [r Hr]. destruct (decide (room_id' = room_id)) as [-> | Hne].
  - exists (f r). by apply get_room_update_eq.
  - exists r. by rewrite get_room_update_ne.
Qed.

Lemma room_assigned_insert (s : Store) (booking_id : Z) (b : Booking.t)
    (rs : list Room.t) :
  room_assigned s ->
  (forall room_id, is_Some (get_room room_id (rooms s)) ->
                   is_Some (get_room room_id rs)) ->
  (Booking.status b = CHECKED_IN \/ Booking.status b = CHECKED_OUT ->
   exists room_id, Booking.room_id b = Some room_id
                   /\ is_Some (get_room room_id rs)) ->
  forall us ts,
    room_assigned
      (mkStore (hotels s) us (room_types s) rs
         (<[booking_id := b]> (bookings s)) ts).
Proof.
  intros Hs Hrs Hb us ts booking_id' b' Hl Hst. cbn in Hl |- *.
  destruct (decide (booking_id = booking_id')) as [<- | Hne].
  - rewrite lookup_insert_eq in Hl. injection Hl as <-.
    destruct (Hb Hst) as (room_id & Hr & [room Hroom]). eauto.
  - rewrite lookup_insert_ne in Hl by done.
    destruct (Hs _ _ Hl Hst) as (room_id & room & Hr & Hroom).
    destruct (Hrs room_id) as [room' Hroom']; eauto.
Qed.

(** Every route keeps [room_assigned]. *)
Lemma room_assigned_handle (r : Request) (s : Store) :
  room_assigned s -> room_assigned (handle r s).
Proof.
  intros Hs. destruct r as [number uid bid data | booking_id | now reason booking_id
                           | now requested booking_id | now booking_id];
    cbn [handle].
  - destruct (create_booking_outcome number uid bid data s)
      as [E | (gid & us' & b & E & -> & _)]; rewrite E; cbn [snd];
      [exact Hs |].
    apply (room_assigned_insert s); [exact Hs | auto |].
    cbn. intros [? | ?]; discriminate.
  - unfold confirm_booking.
    destruct (bookings s !! booking_id) as [b |]; cbn [snd]; [| exact Hs].
    apply (room_assigned_insert s); [exact Hs | auto |].
    destruct b; cbn; intros [? | ?]; discriminate.
  - unfold cancel_booking.
    destruct (bookings s !! booking_id) as [b |]; cbn [snd]; [| exact Hs].
    case_bool_decide; cbn [snd]; [exact Hs |].
    apply (room_assigned_insert s); [exact Hs | auto |].
    destruct b; cbn; intros [? | ?]; discriminate.
  - unfold check_in.
    destruct (bookings s !! booking_id) as [b |]; cbn [snd]; [| exact Hs].
    case_bool_decide; cbn [negb snd]; [| exact Hs].
    destruct (assign_room requested b s) as [room_id |]; cbn [snd];
      [| exact Hs].
    destruct (get_room room_id (rooms s)) as [room |] eqn:Hroom; cbn [snd];
      [| exact Hs].
    apply (room_assigned_insert s); [exact Hs | |].
    + intros room_id'. by apply get_room_update_is_Some.
    + intros _. exists room_id. split; [by destruct b |].
      apply get_room_update_is_Some; [done | by eexists].
  - unfold check_out.
    destruct (bookings s !! booking_id) as [b |] eqn:Hb; cbn [snd];
      [| exact Hs].
    case_bool_decide as Hst; cbn [negb snd]; [| exact Hs].
    destruct (Hs _ _ Hb (or_introl Hst)) as (room_id & room & Hr & Hroom).
    unfold booking_room. rewrite Hr, Hroom.
    cbn [fmap option_fmap option_map].
    apply (room_assigned_insert s); [exact Hs | |].
    + intros room_id'. by apply get_room_update_is_Some.
    + intros _. exists room_id. split; [by destruct b |].
      rewrite (get_room_id _ _ _ Hroom).
      apply get_room_update_is_Some; [done | by eexists].
Qed.

(** X20.  So every store reached from one with [room_assigned] has it: a
    CHECKED_IN booking always has the room that check-out frees. *)
Lemma room_assigned_run (requests : list Request) (s : Store) :
  room_assigned s -> room_assigned (run requests s).
Proof.
  revert s. induction requests as [| r requests IH]; intros s Hs; [exact Hs |].
  apply IH, room_assigned_handle, Hs.
Qed.

(** C9, on the code: the invariant does not survive the routes.  The
    booking created for a stay of no night has
    [check_out_date = check_in_date], and a booking that is created,
    confirmed, checked in and confirmed again is CONFIRMED with a room
    assigned. *)
Theorem booking_invariant_broken :
  (exists b,
     bookings (run [CreateBooking "BK20240227A1B2C3" 1 1 zero_night_request]
                 demo_store) !! 1 = Some b
     /\ Booking.check_out_date b = Booking.check_in_date b
     /\ ~ booking_invariant b)
  /\ (exists b,
        bookings (run [CreateBooking "BK20240227A1B2C3" 1 1 demo_request;
                       ConfirmBooking 1;
                       CheckIn demo_now None 1;
                       ConfirmBooking 1] demo_store) !! 1 = Some b
        /\ Booking.status b = CONFIRMED
        /\ Booking.room_id b = Some 1
        /\ ~ booking_invariant b).
Proof.
  split; eexists; (split; [vm_compute; reflexivity |]).
  - split; [reflexivity |]. intros [Hd _]. cbn in Hd. lia.
  - split; [reflexivity |]. split; [reflexivity |].
    intros [_ Hr]. cbn in Hr.
    destruct (proj1 Hr (ex_intro _ 1 eq_refl)) as [H | [H | [H _]]];
      discriminate H.
Qed.

(** ** The scenario, end to end *)

Example end_to_end_scenario :
  (exists body,
     search_availability 19780 1 19783 19785 2 demo_store = Success 200 body
     /\ available_rooms <$> available_room_types body = [2])
  /\ (exists body,
        search_availability 19780 1 19783 19785 2 confirmed_store
        = Success 200 body
        /\ available_rooms <$> available_room_types body = [1])
  /\ rooms checked_in_store = [Room.set_status OCCUPIED room_102; room_101]
  /\ rooms checked_out_store
     = [Room.set_status VACANT_DIRTY room_102; room_101]
  /\ housekeeping_tasks checked_out_store
     = [HousekeepingTask.mk 1 1 None "cleaning" "normal" "pending"]
  /\ Booking.status <$> bookings checked_out_store !! 1 = Some CHECKED_OUT.
Proof.
  split; [eexists; split; vm_compute; reflexivity |].
  split; [eexists; split; vm_compute; reflexivity |].
  repeat split; vm_compute; reflexivity.
Qed.

(** ** Inventory and the lifecycle *)

Lemma booked_rooms_counted (s : Store) (hotel_id room_type_id : Z)
    (check_in check_out : date) :
  booked_rooms s hotel_id room_type_id check_in check_out
  = Z.of_nat (length (List.filter
      (counted hotel_id room_type_id check_in check_out) (booking_rows s))).
Proof. reflexivity. Qed.

Lemma total_rooms_in_pool (s : Store) (hotel_id room_type_id : Z) :
  total_rooms s hotel_id room_type_id
  = Z.of_nat (length (List.filter (in_pool hotel_id room_type_id) (rooms s))).
Proof. reflexivity. Qed.

Lemma filter_length_perm {A} (f : A -> bool) (l l' : list A) :
  l ≡ₚ l' -> length (List.filter f l) = length (List.filter f l').
Proof.
  induction 1 as [| x l l' _ IH | x y l | l l' l'' _ IH1 _ IH2]; simpl.
  - done.
  - destruct (f x); simpl; by rewrite IH.
  - by destruct (f x), (f y).
  - by rewrite IH1.
Qed.

Lemma rows_insert_fresh (f : Booking.t -> bool) (m : gmap Z Booking.t)
    (booking_id : Z) (b : Booking.t) :
  m !! booking_id = None ->
  length (List.filter f (map_to_list (<[booking_id := b]> m)).*2)
  = ((if f b then 1 else 0) + length (List.filter f (map_to_list m).*2))%nat.
Proof.
  intros Hm.
  rewrite (filter_length_perm f _ (b :: (map_to_list m).*2)).
  - simpl. by destruct (f b).
  - by rewrite (map_to_list_insert m booking_id b Hm).
Qed.

Lemma rows_insert_existing (f : Booking.t -> bool) (m : gmap Z Booking.t)
    (booking_id : Z) (b b' : Booking.t) :
  m !! booking_id = Some b ->
  (length (List.filter f (map_to_list (<[booking_id := b']> m)).*2)
   + (if f b then 1 else 0)
   = length (List.filter f (map_to_list m).*2) + (if f b' then 1 else 0))%nat.
Proof.
  intros Hm.
  rewrite <- (insert_delete_eq m booking_id b').
  rewrite rows_insert_fresh by apply lookup_delete_eq.
  rewrite (filter_length_perm f (map_to_list m).*2
             (b :: (map_to_list (delete booking_id m)).*2)).
  - simpl. destruct (f b), (f b'); simpl; lia.
  - by rewrite <- (map_to_list_delete m booking_id b Hm).
Qed.

(** Replacing a stored booking moves the count of every search by what the
    old row held and what the new one holds. *)
Lemma booked_rooms_replace (s : Store) (booking_id : Z) (b b' : Booking.t)
    (hotel_id room_type_id : Z) (check_in check_out : date) (s' : Store) :
  bookings s !! booking_id = Some b ->
  bookings s' = <[booking_id := b']> (bookings s) ->
  booked_rooms s' hotel_id room_type_id check_in check_out
  = booked_rooms s hotel_id room_type_id check_in check_out
    - held hotel_id room_type_id check_in check_out b
    + held hotel_id room_type_id check_in check_out b'.
Proof.
  intros Hb Hs'. rewrite !booked_rooms_counted. unfold booking_rows, held.
  rewrite Hs'.
  pose proof (rows_insert_existing
                (counted hotel_id room_type_id check_in check_out)
                (bookings s) booking_id b b' Hb) as H.
  destruct (counted _ _ _ _ b), (counted _ _ _ _ b'); lia.
Qed.

Lemma booked_rooms_fresh (s : Store) (booking_id : Z) (b' : Booking.t)
    (hotel_id room_type_id : Z) (check_in check_out : date) (s' : Store) :
  bookings s !! booking_id = None ->
  bookings s' = <[booking_id := b']> (bookings s) ->
  booked_rooms s' hotel_id room_type_id check_in check_out
  = booked_rooms s hotel_id room_type_id check_in check_out
    + held hotel_id room_type_id check_in check_out b'.
Proof.
  intros Hb Hs'. rewrite !booked_rooms_counted. unfold booking_rows, held.
  rewrite Hs', rows_insert_fresh by done.
  destruct (counted _ _ _ _ b'); lia.
Qed.

(** A search sees the store only through its room types and the two
    counts. *)
Lemma search_availability_ext (today : date) (hotel_id : Z)
    (check_in check_out : date) (num_guests : Z) (s s' : Store) :
  room_types s' = room_types s ->
  (forall rt, total_rooms s' hotel_id rt = total_rooms s hotel_id rt) ->
  (forall rt, booked_rooms s' hotel_id rt check_in check_out
              = booked_rooms s hotel_id rt check_in check_out) ->
  search_availability today hotel_id check_in check_out num_guests s'
  = search_availability today hotel_id check_in check_out num_guests s.
Proof.
  intros Hrt Ht Hb. unfold search_availability. rewrite Hrt.
  do 2 (case_match; [reflexivity |]). do 2 f_equal.
  generalize (@nil AvailableType).
  induction (List.filter _ (room_types s)) as [| rt rts IH]; intros acc;
    [reflexivity |].
  cbn [available_types_loop]. rewrite Ht, Hb, !IH. reflexivity.
Qed.

(** What a successful creation leaves behind. *)
Lemma create_booking_success (booking_number : string)
    (user_id booking_id : Z) (data : CreateData) (s s' : Store)
    (body : BookingBody) :
  create_booking booking_number user_id booking_id data s
  = (Success 201 body, s') ->
  exists b,
    bookings s' = <[booking_id := b]> (bookings s)
    /\ body = mkBookingBody "Booking created successfully" (Booking.to_dict b)
    /\ Booking.id b = booking_id
    /\ Booking.status b = PENDING
    /\ Booking.room_id b = None
    /\ Booking.is_deleted b = false
    /\ rooms s' = rooms s
    /\ room_types s' = room_types s
    /\ hotels s' = hotels s
    /\ housekeeping_tasks s' = housekeeping_tasks s
    /\ bookings s !! booking_id = None.
Proof.
  destruct (create_booking_outcome booking_number user_id booking_id data s)
    as [E | (gid & us' & b & E & -> & Hfresh & _)]; rewrite E;
    [discriminate |].
  intros [= <- <-]. eexists. by repeat split.
Qed.

Lemma create_booking_failure (booking_number : string)
    (user_id booking_id : Z) (data : CreateData) (s : Store) :
  succeeded (create_booking booking_number user_id booking_id data s).1
  = false ->
  (create_booking booking_number user_id booking_id data s).2 = s.
Proof.
  destruct (create_booking_outcome booking_number user_id booking_id data s)
    as [E | (gid & us' & b & E & _)]; rewrite E; [done | discriminate].
Qed.

(** X1.  A creation never changes what a search reports: the new booking
    is PENDING and the booked-rooms query counts CONFIRMED and CHECKED_IN
    bookings only, and the route consults no availability. *)
Theorem create_booking_holds_no_inventory (booking_number : string)
    (user_id booking_id : Z) (data : CreateData) (today : date)
    (hotel_id : Z) (check_in check_out : date) (num_guests : Z) (s : Store) :
  search_availability today hotel_id check_in check_out num_guests
    (create_booking booking_number user_id booking_id data s).2
  = search_availability today hotel_id check_in check_out num_guests s.
Proof.
  destruct (create_booking_outcome booking_number user_id booking_id data s)
    as [E | (gid & us' & b & E & Hb & Hfresh & _)]; rewrite E; cbn [snd];
    [reflexivity |].
  apply search_availability_ext; [reflexivity | |].
  - intros rt. by rewrite !total_rooms_in_pool.
  - intros rt.
    rewrite (booked_rooms_fresh s booking_id b) by done.
    unfold held, counted. rewrite Hb. cbn [Booking.status].
    rewrite !bool_decide_eq_false_2 by discriminate.
    rewrite andb_false_r. cbn. lia.
Qed.

(** ** Creation, continued *)

(** X2.  A successful creation adds one booking under an id that was not in
    use and leaves every stored booking as it was; the booking it answers
    with is PENDING, has no room, and is what [get_booking] then returns.
    Rooms and housekeeping tasks are not touched. *)
Theorem create_booking_adds_one_row (booking_number : string)
    (user_id booking_id : Z) (data : CreateData) (s s' : Store)
    (body : BookingBody) :
  create_booking booking_number user_id booking_id data s
  = (Success 201 body, s') ->
  bookings s !! Booking.d_id (booking body) = None
  /\ (forall booking_id' b,
        bookings s !! booking_id' = Some b ->
        bookings s' !! booking_id' = Some b)
  /\ size (bookings s') = S (size (bookings s))
  /\ get_booking (Booking.d_id (booking body)) s' = Success 200 (booking body)
  /\ Booking.d_status (booking body) = PENDING
  /\ Booking.d_room_id (booking body) = None
  /\ rooms s' = rooms s
  /\ housekeeping_tasks s' = housekeeping_tasks s.
Proof.
  intros E.
  destruct (create_booking_success _ _ _ _ _ _ _ E)
    as (b & Hb & -> & Hid & Hst & Hroom & Hdel & Hr & _ & _ & Ht & Hfresh).
  assert (Hd : Booking.d_id (Booking.to_dict b) = booking_id)
    by (by destruct b).
  cbn [booking]. rewrite Hd.
  split; [exact Hfresh |].
  split.
  { intros booking_id' b0 H0. rewrite Hb, lookup_insert_ne; [done |].
    intros <-. by rewrite Hfresh in H0. }
  split; [by rewrite Hb, map_size_insert_None |].
  split.
  { unfold get_booking. by rewrite Hb, lookup_insert_eq, Hdel. }
  split; [by destruct b |]. split; [by destruct b |]. done.
Qed.

Lemma create_booking_adds_one_row_witness :
  exists body s',
    create_booking "BK20240227A1B2C3" 1 1 demo_request demo_store
    = (Success 201 body, s')
    /\ get_booking (Booking.d_id (booking body)) s' = Success 200 (booking body).
Proof.
  assert (E : exists body s',
             create_booking "BK20240227A1B2C3" 1 1 demo_request demo_store
             = (Success 201 body, s'))
    by (do 2 eexists; vm_compute; reflexivity).
  destruct E as (body & s' & E). exists body, s'. split; [exact E |].
  exact (proj1 (proj2 (proj2 (proj2
    (create_booking_adds_one_row _ _ _ _ _ _ _ E))))).
Defined.

Lemma find_email_Some (email : string) (l : list User.t) (u : User.t) :
  List.find (fun u => String.eqb (User.email u) email) l = Some u ->
  In u l /\ User.email u = email.
Proof. intros H. apply find_some in H as [? H]. by apply String.eqb_eq in H. Qed.

Lemma find_email_None (email : string) (l : list User.t) :
  List.find (fun u => String.eqb (User.email u) email) l = None ->
  forall u, In u l -> User.email u <> email.
Proof.
  intros H u Hu. apply (find_none _ _ H) in Hu. by apply String.eqb_neq in Hu.
Qed.

(** The users a creation leaves, by whether the guest's email is known. *)
Lemma create_booking_users (booking_number : string)
    (user_id booking_id : Z) (data : CreateData) (s s' : Store)
    (body : BookingBody) :
  create_booking booking_number user_id booking_id data s
  = (Success 201 body, s') ->
  match List.find (fun u => String.eqb (User.email u) (cd_guest_email data))
                  (users s) with
  | Some guest =>
      users s' = users s
      /\ Booking.d_guest_id (booking body) = User.id guest
  | None =>
      users s'
      = users s
          ++ [User.mk user_id (cd_guest_email data)
                (cd_guest_first_name data) (cd_guest_last_name data)
                (cd_guest_phone data) (cd_guest_id_number data) FRONT_DESK]
      /\ Booking.d_guest_id (booking body) = user_id
      /\ forall u, In u (users s) -> User.id u <> user_id
  end.
Proof.
  destruct (create_booking_outcome booking_number user_id booking_id data s)
    as [E | (gid & us' & b & E & -> & _ & Hu)]; rewrite E;
    [discriminate |].
  intros [= <- <-].
  destruct (List.find _ (users s)).
  - by destruct Hu as [-> ->].
  - by destruct Hu as (-> & -> & Hu).
Qed.

(** X3.  A creation under an email that is already registered adds no user
    and changes none: the booking goes to the registered user, whose stored
    name and phone stay as they were, whatever the request says.  Under an
    email that is not registered it appends one user with the request's
    name and phone, in the FRONT_DESK role, and the booking goes to that
    user. *)
Theorem create_booking_guest (booking_number : string)
    (user_id booking_id : Z) (data : CreateData) (s s' : Store)
    (body : BookingBody) :
  create_booking booking_number user_id booking_id data s
  = (Success 201 body, s') ->
  ((exists u, In u (users s) /\ User.email u = cd_guest_email data) ->
   users s' = users s
   /\ exists u, In u (users s)
                /\ User.email u = cd_guest_email data
                /\ Booking.d_guest_id (booking body) = User.id u)
  /\ ((forall u, In u (users s) -> User.email u <> cd_guest_email data) ->
      exists guest,
        users s' = users s ++ [guest]
        /\ Booking.d_guest_id (booking body) = User.id guest
        /\ User.email guest = cd_guest_email data
        /\ User.first_name guest = cd_guest_first_name data
        /\ User.last_name guest = cd_guest_last_name data
        /\ User.phone guest = cd_guest_phone data
        /\ User.role guest = FRONT_DESK
        /\ forall u, In u (users s) -> User.id u <> User.id guest).
Proof.
  intros E. pose proof (create_booking_users _ _ _ _ _ _ _ E) as H.
  destruct (List.find _ (users s)) as [guest |] eqn:Hf.
  - destruct H as [Hu Hg]. apply find_email_Some in Hf as [Hin Hemail].
    split; [intros _; split; [exact Hu | by exists guest] |].
    intros Hnone. by destruct (Hnone guest Hin).
  - destruct H as (Hu & Hg & Hid).
    pose proof (find_email_None _ _ Hf) as Hnone.
    split; [by intros (u & Hin & Hemail); destruct (Hnone u Hin) |].
    intros _. eexists. split; [exact Hu |]. repeat split; [exact Hg |].
    exact Hid.
Qed.

Lemma create_booking_guest_witness :
  exists body s',
    create_booking "BK20240301Z9Y8X7" 2 2 crowded_request pending_store
    = (Success 201 body, s')
    /\ users s' = users pending_store
    /\ Booking.d_guest_id (booking body) = 1.
Proof.
  assert (E : exists body s',
             create_booking "BK20240301Z9Y8X7" 2 2 crowded_request pending_store
             = (Success 201 body, s'))
    by (do 2 eexists; vm_compute; reflexivity).
  destruct E as (body & s' & E). exists body, s'. split; [exact E |].
  destruct (proj1 (create_booking_guest _ _ _ _ _ _ _ E))
    as (Hu & u & Hin & _ & Hg).
  - eexists. split; [left; reflexivity | reflexivity].
  - split; [exact Hu |]. rewrite Hg.
    destruct Hin as [<- | []]. reflexivity.
Defined.

(** ** What a transition leaves alone *)

Lemma same_but_booking_refl (booking_id : Z) (s : Store) :
  same_but_booking booking_id s s.
Proof. by repeat split. Qed.

Lemma same_but_booking_insert (booking_id : Z) (s : Store) (b b' : Booking.t)
    (rs : list Room.t) (ts : list HousekeepingTask.t) :
  bookings s !! booking_id = Some b ->
  same_but_booking booking_id s
    (mkStore (hotels s) (users s) (room_types s) rs
       (<[booking_id := b']> (bookings s)) ts).
Proof.
  intros Hb. repeat split; cbn.
  - apply dom_insert_lookup_L. by eexists.
  - intros booking_id' Hne. by rewrite lookup_insert_ne.
Qed.

Lemma update_room_ids (room_id : Z) (f : Room.t -> Room.t) (l : list Room.t) :
  (forall x, Room.id (f x) = Room.id x) ->
  List.map Room.id (update_room room_id f l) = List.map Room.id l.
Proof.
  intros Hf. induction l as [| r l IH]; simpl; [done |].
  destruct (Room.id r =? room_id); simpl; by rewrite ?Hf, ?IH.
Qed.

Lemma confirm_booking_same (booking_id : Z) (s : Store) :
  same_but_booking booking_id s (confirm_booking booking_id s).2.
Proof.
  unfold confirm_booking.
  destruct (bookings s !! booking_id) eqn:Hb; cbn [snd];
    [by eapply same_but_booking_insert | apply same_but_booking_refl].
Qed.

Lemma cancel_booking_same (now : datetime) (reason : option string)
    (booking_id : Z) (s : Store) :
  same_but_booking booking_id s (cancel_booking now reason booking_id s).2.
Proof.
  unfold cancel_booking.
  destruct (bookings s !! booking_id) eqn:Hb; cbn [snd];
    [| apply same_but_booking_refl].
  case_bool_decide; cbn [snd];
    [apply same_but_booking_refl | by eapply same_but_booking_insert].
Qed.

Lemma check_in_same (now : datetime) (requested_room_id : option Z)
    (booking_id : Z) (s : Store) :
  same_but_booking booking_id s
    (check_in now requested_room_id booking_id s).2.
Proof.
  unfold check_in.
  destruct (bookings s !! booking_id) eqn:Hb; cbn [snd];
    [| apply same_but_booking_refl].
  case_bool_decide; cbn [negb snd]; [| apply same_but_booking_refl].
  destruct (assign_room _ _ _); cbn [snd]; [| apply same_but_booking_refl].
  destruct (get_room _ _); cbn [snd]; [| apply same_but_booking_refl].
  unfold set_rooms, set_bookings.
  cbn [hotels users room_types rooms bookings housekeeping_tasks].
  by eapply same_but_booking_insert.
Qed.

Lemma check_out_same (now : datetime) (booking_id : Z) (s : Store) :
  same_but_booking booking_id s (check_out now booking_id s).2.
Proof.
  unfold check_out.
  destruct (bookings s !! booking_id) eqn:Hb; cbn [snd];
    [| apply same_but_booking_refl].
  case_bool_decide; cbn [negb snd]; [| apply same_but_booking_refl].
  destruct (booking_room _ _) as [[] |];
    unfold set_housekeeping_tasks, set_rooms, set_bookings;
    cbn [hotels users room_types rooms bookings housekeeping_tasks];
    by eapply same_but_booking_insert.
Qed.

(** X4.  Confirmation, cancellation, check-in and check-out of one booking
    leave every other booking, the set of booking ids, the users, the room
    types and the hotels as they were.  Confirmation and cancellation touch
    no room and no housekeeping task (cancelling a checked-in booking does
    not free its room); check-in creates no task; no route adds or removes
    a room, and check-out adds at most one task. *)
Theorem transitions_frame (now : datetime) (reason : option string)
    (requested_room_id : option Z) (booking_id : Z) (s : Store) :
  let confirmed := (confirm_booking booking_id s).2 in
  let cancelled := (cancel_booking now reason booking_id s).2 in
  let checked_in := (check_in now requested_room_id booking_id s).2 in
  let checked_out := (check_out now booking_id s).2 in
  same_but_booking booking_id s confirmed
  /\ same_but_booking booking_id s cancelled
  /\ same_but_booking booking_id s checked_in
  /\ same_but_booking booking_id s checked_out
  /\ rooms confirmed = rooms s
  /\ housekeeping_tasks confirmed = housekeeping_tasks s
  /\ rooms cancelled = rooms s
  /\ housekeeping_tasks cancelled = housekeeping_tasks s
  /\ housekeeping_tasks checked_in = housekeeping_tasks s
  /\ List.map Room.id (rooms checked_in) = List.map Room.id (rooms s)
  /\ List.map Room.id (rooms checked_out) = List.map Room.id (rooms s)
  /\ (length (housekeeping_tasks checked_out)
      <= S (length (housekeeping_tasks s)))%nat.
Proof.
  cbv zeta.
  split; [apply confirm_booking_same |].
  split; [apply cancel_booking_same |].
  split; [apply check_in_same |].
  split; [apply check_out_same |].
  assert (Hconfirm : rooms (confirm_booking booking_id s).2 = rooms s
            /\ housekeeping_tasks (confirm_booking booking_id s).2
               = housekeeping_tasks s).
  { unfold confirm_booking. by destruct (bookings s !! booking_id). }
  assert (Hcancel : rooms (cancel_booking now reason booking_id s).2 = rooms s
            /\ housekeeping_tasks (cancel_booking now reason booking_id s).2
               = housekeeping_tasks s).
  { unfold cancel_booking. destruct (bookings s !! booking_id); [| done].
    by case_bool_decide. }
  destruct Hconfirm as [-> ->], Hcancel as [-> ->].
  repeat split.
  - unfold check_in. destruct (bookings s !! booking_id); [| done].
    case_bool_decide; [| done].
    destruct (assign_room _ _ _); [| done]. by destruct (get_room _ _).
  - unfold check_in. destruct (bookings s !! booking_id); [| done].
    case_bool_decide; [| done].
    destruct (assign_room _ _ _); [| done].
    destruct (get_room _ _); [| done]. cbn. by apply update_room_ids.
  - unfold check_out. destruct (bookings s !! booking_id); [| done].
    case_bool_decide; [| done].
    destruct (booking_room _ _) as [[] |]; [| done].
    cbn. by apply update_room_ids.
  - unfold check_out. destruct (bookings s !! booking_id); cbn [snd]; [| lia].
    case_bool_decide; cbn [negb snd]; [| lia].
    destruct (booking_room _ _) as [[] |]; cbn; rewrite ?length_app; cbn; lia.
Qed.

(** A creation whose values the columns of [bookings] do not take is rolled
    back, and so is one whose new guest the columns of [users] do not
    take. *)
Lemma create_booking_rejected (booking_number : string)
    (user_id booking_id : Z) (data : CreateData) (s : Store) :
  integer_column (cd_num_guests data) = false
  \/ Decimal.fits_10_2 (cd_total_amount data) = false
  \/ string_column 3 (default "USD" (cd_currency data)) = false
  \/ string_column 20 booking_number = false
  \/ (List.find (fun u => String.eqb (User.email u) (cd_guest_email data))
         (users s) = None
      /\ (string_column 120 (cd_guest_email data) = false
          \/ string_column 100 (cd_guest_first_name data) = false
          \/ string_column 100 (cd_guest_last_name data) = false
          \/ string_column 20 (cd_guest_phone data) = false)) ->
  create_booking booking_number user_id booking_id data s = (InternalError, s).
Proof.
  intros H. unfold create_booking.
  destruct (List.find _ (users s)) as [guest |] eqn:Hf.
  - cbn zeta beta iota. unfold create_integrity.
    cbn [Booking.num_guests Booking.total_amount Booking.currency
         Booking.booking_number].
    destruct H as [-> | [-> | [-> | [-> | [[=] _]]]]];
      by rewrite ?andb_false_r.
  - destruct H as [H | [H | [H | [H | [_ H]]]]].
    5: { unfold user_integrity.
         cbn [User.email User.first_name User.last_name User.phone].
         destruct H as [-> | [-> | [-> | ->]]]; by rewrite ?andb_false_r. }
    all: destruct (user_integrity s _); [| reflexivity];
      cbn zeta beta iota; unfold create_integrity;
      cbn [Booking.num_guests Booking.total_amount Booking.currency
           Booking.booking_number];
      rewrite H; by rewrite ?andb_false_r.
Qed.

(** X5.  A request that is not answered with a success leaves every table
    as it was: the early returns of the routes come before any write, and
    an exception inside a [try] block is rolled back, so a creation that
    the store rejects (an unknown property or room type, a booking number
    in use, a value outside the range of its column) leaves no booking and
    no guest behind, and a check-in into a room that does not exist leaves
    the booking CONFIRMED. *)
Theorem failed_request_changes_nothing (r : Request) (s : Store) :
  handled_ok r s = false -> handle r s = s.
Proof.
  destruct r as [number uid bid data | booking_id | now reason booking_id
                | now requested booking_id | now booking_id];
    cbn [handled_ok handle].
  - apply create_booking_failure.
  - unfold confirm_booking. by destruct (bookings s !! booking_id).
  - unfold cancel_booking. destruct (bookings s !! booking_id); [| done].
    by case_bool_decide.
  - unfold check_in. destruct (bookings s !! booking_id); [| done].
    case_bool_decide; [| done].
    destruct (assign_room _ _ _); [| done]. by destruct (get_room _ _).
  - unfold check_out. destruct (bookings s !! booking_id); [| done].
    by case_bool_decide.
Qed.

Lemma failed_request_changes_nothing_witness :
  handle (CheckIn demo_now (Some 7) 1) confirmed_store = confirmed_store
  /\ Forall (fun r => handle r demo_store = demo_store) rejected_requests.
Proof.
  split; [apply failed_request_changes_nothing; vm_compute; reflexivity |].
  repeat constructor; apply failed_request_changes_nothing; vm_compute;
    reflexivity.
Defined.

(** ** The users table *)

Lemma users_unique_handle (r : Request) (s : Store) :
  users_unique s -> users_unique (handle r s).
Proof.
  intros [He Hi].
  destruct r as [number uid bid data | booking_id | now reason booking_id
                | now requested booking_id | now booking_id];
    cbn [handle]; unfold users_unique.
  - destruct (create_booking_outcome number uid bid data s)
      as [E | (gid & us' & b & E & _ & _ & H)]; rewrite E; cbn [snd];
      [done |].
    cbn [users set_users set_bookings].
    destruct (List.find _ (users s)) as [guest |] eqn:Hf;
      [by destruct H as [-> _] |].
    destruct H as (-> & _ & Hid).
    rewrite !map_app. cbn [List.map User.email User.id].
    split; apply NoDup_app; (split; [done |]);
      (split; [| apply NoDup_singleton]);
      intros x Hx Hx'; apply list_elem_of_singleton in Hx'; subst x;
      apply list_elem_of_In, in_map_iff in Hx as (u & Hu & Hin).
    + by apply (find_email_None _ _ Hf u Hin).
    + by apply (Hid u Hin).
  - by destruct (confirm_booking_same booking_id s) as (_ & -> & _).
  - by destruct (cancel_booking_same now reason booking_id s) as (_ & -> & _).
  - by destruct (check_in_same now requested booking_id s) as (_ & -> & _).
  - by destruct (check_out_same now booking_id s) as (_ & -> & _).
Qed.

(** X6.  The routes keep the users table well formed: no sequence of
    requests gives two users the same email or the same id, because a
    creation looks the email up before it adds a guest. *)
Theorem users_unique_run (requests : list Request) (s : Store) :
  users_unique s -> users_unique (run requests s).
Proof.
  revert s. induction requests as [| r requests IH]; intros s Hs; [exact Hs |].
  apply IH, users_unique_handle, Hs.
Qed.

Lemma users_unique_run_witness :
  users_unique
    (run [CreateBooking "BK20240227A1B2C3" 1 1 demo_request;
          CreateBooking "BK20240301Z9Y8X7" 2 2 crowded_request;
          ConfirmBooking 1] demo_store).
Proof.
  apply users_unique_run. split; apply NoDup_nil_2.
Defined.

(** ** Inventory and the lifecycle, continued *)

Lemma counted_active_matches (hotel_id room_type_id : Z)
    (check_in check_out : date) (b : Booking.t) :
  counted hotel_id room_type_id check_in check_out b
  = Booking.is_active b && matches hotel_id room_type_id check_in check_out b.
Proof.
  unfold counted, matches, Booking.is_active.
  destruct (_ =? _), (_ =? _), (_ || _), (date_filter _ _ _ _); reflexivity.
Qed.

Lemma held_status (hotel_id room_type_id : Z) (check_in check_out : date)
    (b : Booking.t) (v : BookingStatus) :
  held hotel_id room_type_id check_in check_out (Booking.set_status v b)
  = if (bool_decide (v = CONFIRMED) || bool_decide (v = CHECKED_IN))
       && matches hotel_id room_type_id check_in check_out b
    then 1 else 0.
Proof.
  unfold held. rewrite counted_active_matches. by destruct b.
Qed.

Lemma held_active (hotel_id room_type_id : Z) (check_in check_out : date)
    (b : Booking.t) :
  held hotel_id room_type_id check_in check_out b
  = if Booking.is_active b
       && matches hotel_id room_type_id check_in check_out b
    then 1 else 0.
Proof. unfold held. by rewrite counted_active_matches. Qed.

Lemma total_rooms_same_rooms (s s' : Store) (hotel_id room_type_id : Z) :
  rooms s' = rooms s ->
  total_rooms s' hotel_id room_type_id = total_rooms s hotel_id room_type_id.
Proof. intros H. by rewrite !total_rooms_in_pool, H. Qed.

(** X7.  Confirming a booking that holds no inventory (PENDING, CANCELLED
    or CHECKED_OUT) takes exactly one room from every search of its
    property and room type whose range its dates pass the overlap test
    against, and none from any other search; confirming a booking that is
    already CONFIRMED or CHECKED_IN takes none.  The pool of rooms is not
    changed. *)
Theorem confirm_booking_inventory (booking_id : Z) (s : Store) (b : Booking.t)
    (hotel_id room_type_id : Z) (check_in check_out : date) :
  bookings s !! booking_id = Some b ->
  let s' := (confirm_booking booking_id s).2 in
  total_rooms s' hotel_id room_type_id = total_rooms s hotel_id room_type_id
  /\ booked_rooms s' hotel_id room_type_id check_in check_out
     = booked_rooms s hotel_id room_type_id check_in check_out
       + (if negb (Booking.is_active b)
             && matches hotel_id room_type_id check_in check_out b
          then 1 else 0).
Proof.
  intros Hb s'. subst s'. unfold confirm_booking. rewrite Hb. cbn [snd].
  split; [by apply total_rooms_same_rooms |].
  rewrite (booked_rooms_replace s booking_id b (Booking.set_status CONFIRMED b))
    by done.
  rewrite held_status, held_active.
  rewrite (bool_decide_eq_true_2 (CONFIRMED = CONFIRMED)) by done.
  destruct (Booking.is_active b), (matches _ _ _ _ b);
    cbn [orb andb negb]; lia.
Qed.

Lemma confirm_booking_inventory_witness :
  booked_rooms (confirm_booking 1 pending_store).2 1 1 19784 19790
  = booked_rooms pending_store 1 1 19784 19790 + 1.
Proof.
  assert (Hb : exists b, bookings pending_store !! 1 = Some b
                         /\ Booking.is_active b = false
                         /\ matches 1 1 19784 19790 b = true)
    by (eexists; split; [vm_compute; reflexivity | split; reflexivity]).
  destruct Hb as (b & Hb & Ha & Hm).
  destruct (confirm_booking_inventory 1 pending_store b 1 1 19784 19790 Hb)
    as [_ H].
  rewrite H, Ha, Hm. reflexivity.
Defined.

(** X8.  Cancelling a booking gives back exactly what it held: one room in
    every search of its property and room type whose range its dates pass
    the overlap test against when it was CONFIRMED or CHECKED_IN, and
    nothing when it was PENDING, CHECKED_OUT or already CANCELLED.  The pool
    of rooms is not changed. *)
Theorem cancel_booking_inventory (now : datetime) (reason : option string)
    (booking_id : Z) (s : Store) (b : Booking.t)
    (hotel_id room_type_id : Z) (check_in check_out : date) :
  bookings s !! booking_id = Some b ->
  let s' := (cancel_booking now reason booking_id s).2 in
  total_rooms s' hotel_id room_type_id = total_rooms s hotel_id room_type_id
  /\ booked_rooms s' hotel_id room_type_id check_in check_out
     = booked_rooms s hotel_id room_type_id check_in check_out
       - (if Booking.is_active b
             && matches hotel_id room_type_id check_in check_out b
          then 1 else 0).
Proof.
  intros Hb s'. subst s'. unfold cancel_booking. rewrite Hb.
  case_bool_decide as Hst; cbn [snd].
  - split; [done |]. unfold Booking.is_active. rewrite Hst.
    rewrite !bool_decide_eq_false_2 by discriminate. cbn [orb andb]. lia.
  - split; [by apply total_rooms_same_rooms |].
    erewrite (booked_rooms_replace s booking_id b); [| done | reflexivity].
    rewrite !held_active.
    replace (Booking.is_active (Booking.set_refund_amount _ _)) with false
      by (by destruct b).
    cbn [andb]. lia.
Qed.

Lemma cancel_booking_inventory_witness :
  booked_rooms (cancel_booking demo_now None 1 confirmed_store).2
    1 1 19784 19790
  = booked_rooms confirmed_store 1 1 19784 19790 - 1.
Proof.
  assert (Hb : exists b, bookings confirmed_store !! 1 = Some b
                         /\ Booking.is_active b = true
                         /\ matches 1 1 19784 19790 b = true)
    by (eexists; split; [vm_compute; reflexivity | split; reflexivity]).
  destruct Hb as (b & Hb & Ha & Hm).
  destruct (cancel_booking_inventory demo_now None 1 confirmed_store b
              1 1 19784 19790 Hb) as [_ H].
  rewrite H, Ha, Hm. reflexivity.
Defined.

Lemma filter_update_room (f : Room.t -> bool) (g : Room.t -> Room.t)
    (room_id : Z) (l : list Room.t) (r : Room.t) :
  get_room room_id l = Some r ->
  (length (List.filter f (update_room room_id g l)) + (if f r then 1 else 0)
   = length (List.filter f l) + (if f (g r) then 1 else 0))%nat.
Proof.
  unfold get_room. induction l as [| x l IH]; [done |].
  simpl. destruct (Room.id x =? room_id).
  - intros [= ->]. simpl. destruct (f r), (f (g r)); simpl; lia.
  - intros Hr. specialize (IH Hr). simpl. destruct (f x); simpl; lia.
Qed.

Lemma total_rooms_update (s s' : Store) (room_id : Z) (r : Room.t)
    (v : RoomStatus) (hotel_id room_type_id : Z) :
  get_room room_id (rooms s) = Some r ->
  rooms s' = update_room room_id (Room.set_status v) (rooms s) ->
  total_rooms s' hotel_id room_type_id
  = total_rooms s hotel_id room_type_id
    - (if in_pool hotel_id room_type_id r then 1 else 0)
    + (if in_pool hotel_id room_type_id (Room.set_status v r) then 1 else 0).
Proof.
  intros Hr Hs'. rewrite !total_rooms_in_pool, Hs'.
  pose proof (filter_update_room (in_pool hotel_id room_type_id)
                (Room.set_status v) room_id (rooms s) r Hr) as H.
  destruct (in_pool _ _ r), (in_pool _ _ (Room.set_status v r)); lia.
Qed.

Lemma in_pool_status (hotel_id room_type_id : Z) (r : Room.t) (v : RoomStatus) :
  v <> OUT_OF_ORDER ->
  Room.status r <> OUT_OF_ORDER ->
  in_pool hotel_id room_type_id (Room.set_status v r)
  = in_pool hotel_id room_type_id r.
Proof.
  intros Hv Hr. unfold in_pool. destruct r as [i h t n st d del]. cbn in *.
  by rewrite !bool_decide_eq_false_2.
Qed.

Lemma get_room_In (l : list Room.t) (r : Room.t) :
  NoDup (List.map Room.id l) -> In r l -> get_room (Room.id r) l = Some r.
Proof.
  intros Hnd Hin. apply in_split in Hin as (pre & post & ->).
  by apply get_room_middle.
Qed.

(** What a successful check-in did. *)
Lemma check_in_success (now : datetime) (requested_room_id : option Z)
    (booking_id : Z) (s s' : Store) (code : Z) (body : BookingBody) :
  check_in now requested_room_id booking_id s = (Success code body, s') ->
  exists b room_id room,
    bookings s !! booking_id = Some b
    /\ Booking.status b = CONFIRMED
    /\ assign_room requested_room_id b s = Some room_id
    /\ get_room room_id (rooms s) = Some room
    /\ code = 200
    /\ body = mkBookingBody "Check-in successful"
                (Booking.to_dict
                   (Booking.set_actual_check_in (Some now)
                      (Booking.set_status CHECKED_IN
                         (Booking.set_room_id (Some room_id) b))))
    /\ bookings s'
       = <[booking_id := Booking.set_actual_check_in (Some now)
                           (Booking.set_status CHECKED_IN
                              (Booking.set_room_id (Some room_id) b))]>
           (bookings s)
    /\ rooms s' = update_room room_id (Room.set_status OCCUPIED) (rooms s)
    /\ room_types s' = room_types s.
Proof.
  unfold check_in. destruct (bookings s !! booking_id) as [b |]; [| done].
  case_bool_decide as Hst; cbn [negb]; [| done].
  destruct (assign_room _ _ _) as [room_id |] eqn:Ha; [| done].
  destruct (get_room _ _) as [room |] eqn:Hr; [| done].
  intros [= <- <- <-]. exists b, room_id, room. by repeat split.
Qed.

(** X9.  A check-in moves no booked-rooms count: the booking was counted as
    CONFIRMED and is counted as CHECKED_IN.  It moves the pool of a search
    only when the room it occupies was OUT_OF_ORDER, which puts that room
    back into the pool of its property and room type. *)
Theorem check_in_inventory (now : datetime) (requested_room_id : option Z)
    (booking_id : Z) (s s' : Store) (code : Z) (body : BookingBody) :
  check_in now requested_room_id booking_id s = (Success code body, s') ->
  (forall hotel_id room_type_id check_in check_out,
     booked_rooms s' hotel_id room_type_id check_in check_out
     = booked_rooms s hotel_id room_type_id check_in check_out)
  /\ exists room_id room,
       Booking.d_room_id (booking body) = Some room_id
       /\ get_room room_id (rooms s) = Some room
       /\ forall hotel_id room_type_id,
            total_rooms s' hotel_id room_type_id
            = total_rooms s hotel_id room_type_id
              + (if bool_decide (Room.status room = OUT_OF_ORDER)
                    && (Room.hotel_id room =? hotel_id)
                    && (Room.room_type_id room =? room_type_id)
                    && negb (Room.is_deleted room)
                 then 1 else 0).
Proof.
  intros E.
  destruct (check_in_success _ _ _ _ _ _ _ E)
    as (b & room_id & room & Hb & Hst & Ha & Hr & -> & -> & Hbs & Hrs & Hrt).
  split.
  - intros hotel_id room_type_id ci co.
    rewrite (booked_rooms_replace s booking_id b _ _ _ _ _ s' Hb Hbs).
    rewrite !held_active.
    replace (Booking.is_active (Booking.set_actual_check_in _ _)) with true
      by (by destruct b).
    replace (Booking.is_active b) with true
      by (unfold Booking.is_active; by rewrite Hst).
    replace (matches _ _ _ _ (Booking.set_actual_check_in _ _))
      with (matches hotel_id room_type_id ci co b) by (by destruct b).
    lia.
  - exists room_id, room. split; [by destruct b |]. split; [exact Hr |].
    intros hotel_id room_type_id.
    rewrite (total_rooms_update s s' room_id room OCCUPIED _ _ Hr Hrs).
    unfold in_pool. destruct room as [i h t n st d del]. cbn.
    rewrite (bool_decide_eq_false_2 (OCCUPIED = OUT_OF_ORDER)) by discriminate.
    case_bool_decide; destruct (h =? hotel_id), (t =? room_type_id), del;
      cbn; lia.
Qed.

Lemma check_in_inventory_witness :
  booked_rooms checked_in_store 1 1 19783 19785
  = booked_rooms confirmed_store 1 1 19783 19785.
Proof.
  assert (E : exists body,
             check_in demo_now None 1 confirmed_store
             = (Success 200 body, checked_in_store))
    by (eexists; vm_compute; reflexivity).
  destruct E as (body & E).
  exact (proj1 (check_in_inventory _ _ _ _ _ _ _ E) 1 1 19783 19785).
Defined.

Lemma check_in_failure (now : datetime) (requested_room_id : option Z)
    (booking_id : Z) (s : Store) :
  succeeded (check_in now requested_room_id booking_id s).1 = false ->
  (check_in now requested_room_id booking_id s).2 = s.
Proof.
  unfold check_in. destruct (bookings s !! booking_id); [| done].
  case_bool_decide; [| done].
  destruct (assign_room _ _ _); [| done]. by destruct (get_room _ _).
Qed.

(** X10.  A check-in that assigns a room by itself changes no search
    result: the room it occupies was CLEAN_READY, so the pool keeps it, and
    the booking stays counted.  (Primary keys of rooms are unique.) *)
Theorem check_in_auto_keeps_availability (now : datetime) (booking_id : Z)
    (s : Store) (b : Booking.t) (today : date) (hotel_id : Z)
    (check_in_date check_out_date : date) (num_guests : Z) :
  bookings s !! booking_id = Some b ->
  Booking.room_id b = None ->
  rooms_pk_unique s ->
  search_availability today hotel_id check_in_date check_out_date num_guests
    (check_in now None booking_id s).2
  = search_availability today hotel_id check_in_date check_out_date
      num_guests s.
Proof.
  intros Hb Hroom Hpk.
  destruct (check_in now None booking_id s) as [resp s'] eqn:E.
  destruct resp as [code body | code error |]; cbn [snd];
    try (pose proof (check_in_failure now None booking_id s) as H;
         rewrite E in H; cbn in H; by rewrite (H eq_refl)).
  destruct (check_in_success _ _ _ _ _ _ _ E)
    as (b' & room_id & room & Hb' & Hst & Ha & Hr & -> & -> & Hbs & Hrs & Hrt).
  rewrite Hb in Hb'. injection Hb' as <-.
  unfold assign_room in Ha. rewrite Hroom in Ha. cbn [falsy] in Ha.
  destruct (List.find _ (rooms s)) as [found |] eqn:Hf; [| done].
  injection Ha as <-. apply find_some in Hf as [Hin Hc].
  apply clean_room_filter_candidate in Hc as (_ & _ & Hclean & _).
  rewrite (get_room_In _ _ Hpk Hin) in Hr. injection Hr as <-.
  apply search_availability_ext; [exact Hrt | |].
  - intros rt.
    rewrite (total_rooms_update s s' _ found OCCUPIED _ _
               (get_room_In _ _ Hpk Hin) Hrs).
    rewrite in_pool_status by (done || by rewrite Hclean).
    destruct (in_pool _ _ found); lia.
  - intros rt.
    rewrite (booked_rooms_replace s booking_id b _ _ _ _ _ s' Hb Hbs).
    rewrite !held_active.
    replace (Booking.is_active (Booking.set_actual_check_in _ _)) with true
      by (by destruct b).
    replace (Booking.is_active b) with true
      by (unfold Booking.is_active; by rewrite Hst).
    replace (matches _ _ _ _ (Booking.set_actual_check_in _ _))
      with (matches hotel_id rt check_in_date check_out_date b)
      by (by destruct b).
    lia.
Qed.

Lemma check_in_auto_keeps_availability_witness :
  search_availability 19780 1 19783 19785 2 checked_in_store
  = search_availability 19780 1 19783 19785 2 confirmed_store.
Proof.
  assert (Hb : exists b, bookings confirmed_store !! 1 = Some b
                         /\ Booking.room_id b = None)
    by (eexists; split; [vm_compute; reflexivity | reflexivity]).
  destruct Hb as (b & Hb & Hroom).
  assert (Hpk : rooms_pk_unique confirmed_store).
  { unfold rooms_pk_unique. change (NoDup [1; 2]).
    repeat constructor; rewrite ?elem_of_cons, ?elem_of_nil; intuition lia. }
  exact (check_in_auto_keeps_availability demo_now 1 confirmed_store b
           19780 1 19783 19785 2 Hb Hroom Hpk).
Defined.

(** What a successful check-out did. *)
Lemma check_out_success (now : datetime) (booking_id : Z) (s : Store)
    (b : Booking.t) :
  bookings s !! booking_id = Some b ->
  Booking.status b = CHECKED_IN ->
  let b' :=
    Booking.set_actual_check_out (Some now)
      (Booking.set_status CHECKED_OUT b) in
  let s' := (check_out now booking_id s).2 in
  (check_out now booking_id s).1
  = Success 200 (mkBookingBody "Check-out successful" (Booking.to_dict b'))
  /\ bookings s' = <[booking_id := b']> (bookings s)
  /\ room_types s' = room_types s
  /\ match booking_room b s with
     | Some (room_id, room) =>
         rooms s'
         = update_room (Room.id room) (Room.set_status VACANT_DIRTY) (rooms s)
         /\ housekeeping_tasks s'
            = housekeeping_tasks s
                ++ [HousekeepingTask.mk (next_task_id s) room_id None
                      "cleaning" "normal" "pending"]
     | None =>
         rooms s' = rooms s /\ housekeeping_tasks s' = housekeeping_tasks s
     end.
Proof.
  intros Hb Hst. cbv zeta. unfold check_out. rewrite Hb.
  rewrite (bool_decide_eq_true_2 _ Hst). cbn [negb fst snd].
  by destruct (booking_room b s) as [[room_id room] |].
Qed.

(** X11.  Checking a guest out gives back the room the booking held in
    every search of its property and room type whose range its dates pass
    the overlap test against.  The pool of rooms is unchanged unless the
    booking's room was OUT_OF_ORDER: a VACANT_DIRTY room counts as
    inventory. *)
Theorem check_out_inventory (now : datetime) (booking_id : Z) (s : Store)
    (b : Booking.t) (hotel_id room_type_id : Z) (check_in check_out_ : date) :
  bookings s !! booking_id = Some b ->
  Booking.status b = CHECKED_IN ->
  let s' := (check_out now booking_id s).2 in
  booked_rooms s' hotel_id room_type_id check_in check_out_
  = booked_rooms s hotel_id room_type_id check_in check_out_
    - (if matches hotel_id room_type_id check_in check_out_ b then 1 else 0)
  /\ ((forall room_id room,
         booking_room b s = Some (room_id, room) ->
         Room.status room <> OUT_OF_ORDER) ->
      total_rooms s' hotel_id room_type_id
      = total_rooms s hotel_id room_type_id).
Proof.
  intros Hb Hst s'.
  destruct (check_out_success now booking_id s b Hb Hst)
    as (_ & Hbs & _ & Hrooms).
  fold s' in Hbs, Hrooms. split.
  - rewrite (booked_rooms_replace s booking_id b _ _ _ _ _ s' Hb Hbs).
    rewrite !held_active.
    replace (Booking.is_active (Booking.set_actual_check_out _ _)) with false
      by (by destruct b).
    replace (Booking.is_active b) with true
      by (unfold Booking.is_active; rewrite Hst; reflexivity).
    cbn [andb]. lia.
  - intros Hok. destruct (booking_room b s) as [[room_id room] |] eqn:Hbr.
    + destruct Hrooms as [Hrs _].
      assert (Hr : get_room (Room.id room) (rooms s) = Some room).
      { unfold booking_room in Hbr. destruct (Booking.room_id b); [| done].
        destruct (get_room z (rooms s)) as [r |] eqn:Hg; [| done].
        injection Hbr as <- <-. by rewrite (get_room_id _ _ _ Hg). }
      rewrite (total_rooms_update s s' _ room VACANT_DIRTY _ _ Hr Hrs).
      rewrite in_pool_status by (done || by eapply Hok).
      destruct (in_pool _ _ room); lia.
    + destruct Hrooms as [Hrs _]. by apply total_rooms_same_rooms.
Qed.

Lemma check_out_inventory_witness :
  booked_rooms checked_out_store 1 1 19783 19785
  = booked_rooms checked_in_store 1 1 19783 19785 - 1
  /\ total_rooms checked_out_store 1 1 = total_rooms checked_in_store 1 1.
Proof.
  assert (Hb : exists b, bookings checked_in_store !! 1 = Some b
                         /\ Booking.status b = CHECKED_IN
                         /\ matches 1 1 19783 19785 b = true
                         /\ booking_room b checked_in_store
                            = Some (1, Room.set_status OCCUPIED room_102))
    by (eexists; split; [vm_compute; reflexivity | by repeat split]).
  destruct Hb as (b & Hb & Hst & Hm & Hroom).
  destruct (check_out_inventory (demo_now + 2 * 86400) 1 checked_in_store b
              1 1 19783 19785 Hb Hst) as [H1 H2].
  split.
  - unfold checked_out_store. rewrite H1, Hm. reflexivity.
  - apply H2. intros room_id room Hr. rewrite Hroom in Hr.
    injection Hr as <- <-. discriminate.
Defined.

(** X12.  A soft-deleted booking still holds its inventory: the
    booked-rooms query does not look at the soft-delete flag (the queries
    on rooms and room types do), so soft-deleting a booking changes no
    search result. *)
Theorem soft_deleted_booking_holds_inventory (now : datetime)
    (booking_id : Z) (s : Store) (today : date) (hotel_id : Z)
    (check_in check_out_ : date) (num_guests : Z) :
  search_availability today hotel_id check_in check_out_ num_guests
    (set_bookings (alter (soft_delete now) booking_id (bookings s)) s)
  = search_availability today hotel_id check_in check_out_ num_guests s.
Proof.
  apply search_availability_ext; [done | done |].
  intros rt. destruct (bookings s !! booking_id) as [b |] eqn:Hb.
  - rewrite (booked_rooms_replace s booking_id b (soft_delete now b)); [| done |].
    + rewrite !held_active.
      replace (Booking.is_active (soft_delete now b))
        with (Booking.is_active b) by (by destruct b).
      replace (matches _ _ _ _ (soft_delete now b))
        with (matches hotel_id rt check_in check_out_ b) by (by destruct b).
      lia.
    + cbn. apply map_eq. intros k. rewrite lookup_alter, lookup_insert.
      case_decide; [subst; by rewrite Hb | done].
  - rewrite !booked_rooms_counted. unfold booking_rows. cbn.
    replace (alter (soft_delete now) booking_id (bookings s)) with (bookings s);
      [done |].
    apply map_eq. intros k. rewrite lookup_alter.
    case_decide; [subst; by rewrite Hb | done].
Qed.

(** ** Rooms and the bookings that hold them *)

Lemma rooms_exclusive_insert (s : Store) (booking_id : Z) (b' : Booking.t)
    (rs : list Room.t) (us : list User.t) (ts : list HousekeepingTask.t) :
  rooms_exclusive s ->
  List.map Room.id rs = List.map Room.id (rooms s) ->
  (forall room_id room',
     get_room room_id rs = Some room' ->
     Room.status room' = CLEAN_READY ->
     get_room room_id (rooms s) = Some room') ->
  (forall room_id,
     Booking.room_id b' = Some room_id ->
     (forall room', get_room room_id rs = Some room' ->
                    Room.status room' <> CLEAN_READY)
     /\ (forall id2 b2, id2 <> booking_id ->
                        bookings s !! id2 = Some b2 ->
                        Booking.room_id b2 <> Some room_id)) ->
  rooms_exclusive
    (mkStore (hotels s) us (room_types s) rs
       (<[booking_id := b']> (bookings s)) ts).
Proof.
  intros (Hpk & Hclean & Hexcl) Hids Hrs Hb'.
  split; [unfold rooms_pk_unique in *; cbn; by rewrite Hids |].
  split; cbn.
  - intros id b room_id room Hl Hr Hg.
    destruct (decide (booking_id = id)) as [<- | Hne].
    + rewrite lookup_insert_eq in Hl. injection Hl as <-.
      by apply (proj1 (Hb' _ Hr)).
    + rewrite lookup_insert_ne in Hl by done.
      intros Hst. by apply (Hclean _ _ _ _ Hl Hr (Hrs _ _ Hg Hst)).
  - intros id1 id2 b1 b2 room_id Hl1 Hl2 Hr1 Hr2.
    destruct (decide (booking_id = id1)) as [<- | Hne1];
      destruct (decide (booking_id = id2)) as [<- | Hne2]; [done | | |].
    + rewrite lookup_insert_eq in Hl1. injection Hl1 as <-.
      rewrite lookup_insert_ne in Hl2 by done.
      by destruct (proj2 (Hb' _ Hr1) id2 b2).
    + rewrite lookup_insert_eq in Hl2. injection Hl2 as <-.
      rewrite lookup_insert_ne in Hl1 by done.
      by destruct (proj2 (Hb' _ Hr2) id1 b1).
    + rewrite lookup_insert_ne in Hl1, Hl2 by done. eauto.
Qed.

(** A booking keeps what it holds when its room column is not written. *)
Lemma rooms_exclusive_same_room (s : Store) (booking_id : Z)
    (b b' : Booking.t) :
  rooms_exclusive s ->
  bookings s !! booking_id = Some b ->
  Booking.room_id b' = Booking.room_id b ->
  rooms_exclusive (set_bookings (<[booking_id := b']> (bookings s)) s).
Proof.
  intros Hs Hb Hroom.
  apply (rooms_exclusive_insert s); [done | done | done |].
  destruct Hs as (_ & Hclean & Hexcl).
  intros room_id Hr. rewrite Hroom in Hr. split.
  - intros room' Hg. by eapply Hclean.
  - intros id2 b2 Hne Hl2 Hr2. apply Hne. by eapply Hexcl.
Qed.

Lemma update_room_clean (s : Store) (room_id : Z) (room : Room.t)
    (v : RoomStatus) :
  v <> CLEAN_READY ->
  get_room room_id (rooms s) = Some room ->
  forall room_id' room',
    get_room room_id' (update_room room_id (Room.set_status v) (rooms s))
    = Some room' ->
    Room.status room' = CLEAN_READY ->
    get_room room_id' (rooms s) = Some room'.
Proof.
  intros Hv Hg room_id' room' Hg' Hst.
  destruct (decide (room_id' = room_id)) as [-> | Hne].
  - rewrite (get_room_update_eq _ _ _ room) in Hg' by done.
    injection Hg' as <-. by destruct room.
  - by rewrite get_room_update_ne in Hg'.
Qed.

Lemma rooms_exclusive_handle (r : Request) (s : Store) :
  names_no_room r -> rooms_exclusive s -> rooms_exclusive (handle r s).
Proof.
  intros Hr Hs.
  destruct r as [number uid bid data | booking_id | now reason booking_id
                | now requested booking_id | now booking_id];
    cbn [handle].
  - destruct (create_booking_outcome number uid bid data s)
      as [E | (gid & us' & b & E & -> & _)]; rewrite E; cbn [snd];
      [exact Hs |].
    apply (rooms_exclusive_insert s); [done | done | done |].
    intros room_id Hroom. discriminate Hroom.
  - unfold confirm_booking.
    destruct (bookings s !! booking_id) as [b |] eqn:Hb; cbn [snd];
      [| exact Hs].
    apply (rooms_exclusive_same_room s booking_id b); [done | done |].
    by destruct b.
  - unfold cancel_booking.
    destruct (bookings s !! booking_id) as [b |] eqn:Hb; cbn [snd];
      [| exact Hs].
    case_bool_decide; cbn [snd]; [exact Hs |].
    apply (rooms_exclusive_same_room s booking_id b); [done | done |].
    by destruct b.
  - cbn in Hr. unfold check_in.
    destruct (bookings s !! booking_id) as [b |] eqn:Hb; cbn [snd];
      [| exact Hs].
    case_bool_decide; cbn [negb snd]; [| exact Hs].
    destruct (assign_room requested b s) as [room_id |] eqn:Ha; cbn [snd];
      [| exact Hs].
    destruct (get_room room_id (rooms s)) as [room |] eqn:Hg; cbn [snd];
      [| exact Hs].
    apply (rooms_exclusive_insert s); [exact Hs | by apply update_room_ids | |].
    { by apply (update_room_clean s room_id room). }
    intros room_id' Hroom'.
    assert (room_id' = room_id) as -> by (destruct b; cbn in Hroom'; congruence).
    split.
    { intros room' Hg'.
      rewrite (get_room_update_eq _ _ _ room) in Hg' by done.
      injection Hg' as <-. by destruct room. }
    intros id2 b2 Hne Hl2 Hr2.
    destruct Hs as (Hpk & Hclean & Hexcl).
    unfold assign_room in Ha. rewrite Hr in Ha.
    destruct (falsy (Booking.room_id b)).
    + destruct (List.find _ (rooms s)) as [found |] eqn:Hf; [| done].
      injection Ha as <-. apply find_some in Hf as [Hin Hc].
      apply clean_room_filter_candidate in Hc as (_ & _ & Hst & _).
      by apply (Hclean id2 b2 (Room.id found) found Hl2 Hr2
                  (get_room_In _ _ Hpk Hin)).
    + apply Hne. by apply (Hexcl id2 booking_id b2 b room_id).
  - unfold check_out.
    destruct (bookings s !! booking_id) as [b |] eqn:Hb; cbn [snd];
      [| exact Hs].
    case_bool_decide; cbn [negb snd]; [| exact Hs].
    unfold booking_room.
    destruct (Booking.room_id b) as [room_id |] eqn:Hroom;
      [destruct (get_room room_id (rooms s)) as [room |] eqn:Hg |];
      cbn [fmap option_fmap option_map];
      try (apply (rooms_exclusive_same_room s booking_id b);
           [done | done | by destruct b]).
    rewrite (get_room_id _ _ _ Hg).
    apply (rooms_exclusive_insert s); [exact Hs | by apply update_room_ids | |].
    { by apply (update_room_clean s room_id room). }
    intros room_id' Hroom'.
    assert (room_id' = room_id) as -> by (destruct b; cbn in *; congruence).
    split.
    { intros room' Hg'.
      cbn [rooms set_rooms set_bookings set_housekeeping_tasks] in Hg'.
      rewrite (get_room_update_eq _ _ _ room) in Hg' by done.
      injection Hg' as <-. by destruct room. }
    intros id2 b2 Hne Hl2 Hr2. destruct Hs as (_ & _ & Hexcl).
    apply Hne. by apply (Hexcl id2 booking_id b2 b room_id).
Qed.

(** X13.  As long as no check-in names a room of its own, no sequence of
    requests gives one room to two bookings: the automatic assignment only
    takes CLEAN_READY rooms, a room that a booking holds is never
    CLEAN_READY, and no route sets a room back to CLEAN_READY.  (Primary
    keys of rooms are unique.) *)
Theorem rooms_exclusive_run (requests : list Request) (s : Store) :
  Forall names_no_room requests ->
  rooms_exclusive s ->
  rooms_exclusive (run requests s).
Proof.
  revert s. induction requests as [| r requests IH]; intros s Hr Hs;
    [exact Hs |].
  apply Forall_cons in Hr as [Hr Hrs].
  apply IH; [exact Hrs |]. by apply rooms_exclusive_handle.
Qed.

Lemma rooms_exclusive_run_witness :
  let s :=
    run [CreateBooking "BK20240227A1B2C3" 1 1 demo_request;
         CreateBooking "BK20240301Z9Y8X7" 2 2 crowded_request;
         ConfirmBooking 1; ConfirmBooking 2;
         CheckIn demo_now None 1; CheckIn demo_now None 2] demo_store in
  rooms_exclusive s
  /\ Booking.room_id <$> bookings s !! 1 = Some (Some 1)
  /\ Booking.room_id <$> bookings s !! 2 = Some (Some 2).
Proof.
  cbv zeta. split; [| split; vm_compute; reflexivity].
  apply rooms_exclusive_run.
  - repeat constructor.
  - split; [| split].
    + unfold rooms_pk_unique. change (NoDup [1; 2]).
      repeat constructor; rewrite ?elem_of_cons, ?elem_of_nil; intuition lia.
    + intros booking_id b room_id room Hb.
      change (bookings demo_store) with (∅ : gmap Z Booking.t) in Hb.
      by rewrite lookup_empty in Hb.
    + intros id1 id2 b1 b2 room_id Hb.
      change (bookings demo_store) with (∅ : gmap Z Booking.t) in Hb.
      by rewrite lookup_empty in Hb.
Defined.

(** A check-in that names an existing room, for a booking without one. *)
Lemma check_in_requested (now : datetime) (room_id booking_id : Z)
    (s : Store) (b : Booking.t) (room : Room.t) :
  bookings s !! booking_id = Some b ->
  Booking.status b = CONFIRMED ->
  falsy (Booking.room_id b) = true ->
  room_id <> 0 ->
  get_room room_id (rooms s) = Some room ->
  let b' :=
    Booking.set_actual_check_in (Some now)
      (Booking.set_status CHECKED_IN
         (Booking.set_room_id (Some room_id) b)) in
  check_in now (Some room_id) booking_id s
  = (Success 200 (mkBookingBody "Check-in successful" (Booking.to_dict b')),
     set_rooms (update_room room_id (Room.set_status OCCUPIED) (rooms s))
       (set_bookings (<[booking_id := b']> (bookings s)) s)).
Proof.
  intros Hb Hst Hf Hne Hg. cbv zeta. unfold check_in. rewrite Hb.
  rewrite (bool_decide_eq_true_2 _ Hst). cbn [negb].
  unfold assign_room. rewrite Hf. cbn [falsy].
  rewrite (proj2 (Z.eqb_neq room_id 0) Hne). by rewrite Hg.
Qed.

(** X14.  A check-in that names a room takes it as it is: for a CONFIRMED
    booking without a room, any existing room is assigned and its status
    becomes OCCUPIED, whatever its property, room type, status or
    soft-delete flag, which stay as they were (no other room changes); when
    no room has the named id, the request is answered 500 and the booking
    stays CONFIRMED without a room. *)
Theorem check_in_takes_named_room (now : datetime) (room_id booking_id : Z)
    (s : Store) (b : Booking.t) :
  bookings s !! booking_id = Some b ->
  Booking.status b = CONFIRMED ->
  falsy (Booking.room_id b) = true ->
  room_id <> 0 ->
  (forall room,
     get_room room_id (rooms s) = Some room ->
     exists body s',
       check_in now (Some room_id) booking_id s = (Success 200 body, s')
       /\ Booking.d_status (booking body) = CHECKED_IN
       /\ Booking.d_room_id (booking body) = Some room_id
       /\ Booking.room_id <$> bookings s' !! booking_id = Some (Some room_id)
       /\ get_room room_id (rooms s')
          = Some (Room.mk room_id (Room.hotel_id room)
                    (Room.room_type_id room) (Room.room_number room) OCCUPIED
                    (Room.deleted_at room) (Room.is_deleted room))
       /\ forall room_id', room_id' <> room_id ->
            get_room room_id' (rooms s') = get_room room_id' (rooms s))
  /\ (get_room room_id (rooms s) = None ->
      check_in now (Some room_id) booking_id s = (InternalError, s)).
Proof.
  intros Hb Hst Hf Hne. split.
  - intros room Hg. do 2 eexists.
    split; [by apply (check_in_requested now room_id booking_id s b room) |].
    cbn [booking bookings rooms set_rooms set_bookings].
    split; [by destruct b |]. split; [by destruct b |].
    split; [rewrite lookup_insert_eq; by destruct b |].
    split.
    { rewrite (get_room_update_eq (Room.set_status OCCUPIED) room_id
                 (rooms s) room (fun x => eq_refl) Hg).
      unfold Room.set_status. by rewrite (get_room_id _ _ _ Hg). }
    intros room_id' Hne'. by apply get_room_update_ne.
  - intros Hg. unfold check_in. rewrite Hb.
    rewrite (bool_decide_eq_true_2 _ Hst). cbn [negb].
    unfold assign_room. rewrite Hf. cbn [falsy].
    rewrite (proj2 (Z.eqb_neq room_id 0) Hne). by rewrite Hg.
Qed.

Lemma check_in_takes_named_room_witness :
  (exists body s',
     check_in demo_now (Some 2) 1 confirmed_store = (Success 200 body, s')
     /\ get_room 2 (rooms s') = Some (Room.mk 2 1 1 "101" OCCUPIED None false))
  /\ check_in demo_now (Some 7) 1 confirmed_store
     = (InternalError, confirmed_store).
Proof.
  assert (Hb : exists b, bookings confirmed_store !! 1 = Some b
                         /\ Booking.status b = CONFIRMED
                         /\ falsy (Booking.room_id b) = true)
    by (eexists; split; [vm_compute; reflexivity | split; reflexivity]).
  destruct Hb as (b & Hb & Hst & Hf).
  split.
  - destruct (proj1 (check_in_takes_named_room demo_now 2 1 confirmed_store b
                       Hb Hst Hf ltac:(lia)) room_101 eq_refl)
      as (body & s' & E & _ & _ & _ & Hg & _).
    by exists body, s'.
  - apply (proj2 (check_in_takes_named_room demo_now 7 1 confirmed_store b
                    Hb Hst Hf ltac:(lia))).
    reflexivity.
Defined.

(** X15.  Naming the room at check-in can put two guests into one room:
    two CONFIRMED bookings without a room that are checked in one after the
    other into the same existing room both end CHECKED_IN with that room
    assigned; the second check-in does not look at the room's status. *)
Theorem named_room_is_shared (now1 now2 : datetime) (room_id id1 id2 : Z)
    (s : Store) (b1 b2 : Booking.t) (room : Room.t) :
  id1 <> id2 ->
  bookings s !! id1 = Some b1 ->
  bookings s !! id2 = Some b2 ->
  Booking.status b1 = CONFIRMED ->
  Booking.status b2 = CONFIRMED ->
  falsy (Booking.room_id b1) = true ->
  falsy (Booking.room_id b2) = true ->
  room_id <> 0 ->
  get_room room_id (rooms s) = Some room ->
  let s' :=
    run [CheckIn now1 (Some room_id) id1; CheckIn now2 (Some room_id) id2] s in
  exists c1 c2,
    bookings s' !! id1 = Some c1
    /\ bookings s' !! id2 = Some c2
    /\ Booking.status c1 = CHECKED_IN
    /\ Booking.status c2 = CHECKED_IN
    /\ Booking.room_id c1 = Some room_id
    /\ Booking.room_id c2 = Some room_id.
Proof.
  intros Hne Hb1 Hb2 Hs1 Hs2 Hf1 Hf2 Hr Hg. cbv zeta.
  cbn [run fold_left handle].
  rewrite (check_in_requested now1 room_id id1 s b1 room) by done.
  cbn [snd].
  erewrite (check_in_requested now2 room_id id2 _ b2); cycle 1.
  - cbn. by rewrite lookup_insert_ne.
  - done.
  - done.
  - done.
  - cbn. by apply get_room_update_eq.
  - cbn [snd bookings rooms set_rooms set_bookings].
    do 2 eexists.
    split; [rewrite lookup_insert_ne by done; apply lookup_insert_eq |].
    split; [apply lookup_insert_eq |].
    destruct b1, b2. by repeat split.
Qed.

Lemma named_room_is_shared_witness :
  let s :=
    run [CreateBooking "BK20240227A1B2C3" 1 1 demo_request;
         CreateBooking "BK20240301Z9Y8X7" 2 2 crowded_request;
         ConfirmBooking 1; ConfirmBooking 2;
         CheckIn demo_now (Some 2) 1; CheckIn demo_now (Some 2) 2]
      demo_store in
  exists c1 c2,
    bookings s !! 1 = Some c1 /\ bookings s !! 2 = Some c2
    /\ Booking.room_id c1 = Some 2 /\ Booking.room_id c2 = Some 2.
Proof.
  cbv zeta.
  set (s0 := run [CreateBooking "BK20240227A1B2C3" 1 1 demo_request;
                  CreateBooking "BK20240301Z9Y8X7" 2 2 crowded_request;
                  ConfirmBooking 1; ConfirmBooking 2] demo_store).
  assert (Hb : exists b1 b2,
             bookings s0 !! 1 = Some b1 /\ bookings s0 !! 2 = Some b2
             /\ Booking.status b1 = CONFIRMED /\ Booking.status b2 = CONFIRMED
             /\ falsy (Booking.room_id b1) = true
             /\ falsy (Booking.room_id b2) = true)
    by (do 2 eexists; split; [vm_compute; reflexivity |];
        split; [vm_compute; reflexivity | by repeat split]).
  destruct Hb as (b1 & b2 & Hb1 & Hb2 & Hs1 & Hs2 & Hf1 & Hf2).
  destruct (named_room_is_shared demo_now demo_now 2 1 2 s0 b1 b2 room_101
              ltac:(lia) Hb1 Hb2 Hs1 Hs2 Hf1 Hf2 ltac:(lia) eq_refl)
    as (c1 & c2 & H1 & H2 & _ & _ & Hr1 & Hr2).
  exists c1, c2. by repeat split.
Defined.

(** X16.  The room a check-in uses is, in this order: the room the booking
    already has, the room the request names, the first ready room.  So a
    booking that is CONFIRMED again after a check-in goes back to its room
    whatever room the new request names, and the named room is left alone;
    and a requested room id of 0 counts as no request, as [None] does. *)
Theorem check_in_room_resolution (now : datetime)
    (requested_room_id : option Z) (booking_id : Z) (s : Store)
    (b : Booking.t) (room_id : Z) (room : Room.t) :
  bookings s !! booking_id = Some b ->
  Booking.status b = CONFIRMED ->
  Booking.room_id b = Some room_id ->
  room_id <> 0 ->
  get_room room_id (rooms s) = Some room ->
  (exists body s',
     check_in now requested_room_id booking_id s = (Success 200 body, s')
     /\ Booking.d_room_id (booking body) = Some room_id
     /\ get_room room_id (rooms s') = Some (Room.set_status OCCUPIED room)
     /\ forall room_id', room_id' <> room_id ->
          get_room room_id' (rooms s') = get_room room_id' (rooms s))
  /\ forall booking_id' s0,
       check_in now (Some 0) booking_id' s0 = check_in now None booking_id' s0.
Proof.
  intros Hb Hst Hroom Hne Hg. split.
  - unfold check_in. rewrite Hb. rewrite (bool_decide_eq_true_2 _ Hst).
    cbn [negb]. unfold assign_room. rewrite Hroom. cbn [falsy].
    rewrite (proj2 (Z.eqb_neq room_id 0) Hne), Hg.
    do 2 eexists. split; [reflexivity |].
    cbn [booking rooms set_rooms set_bookings].
    split; [by destruct b |]. split; [by apply get_room_update_eq |].
    intros room_id' Hne'. by apply get_room_update_ne.
  - reflexivity.
Qed.

Lemma check_in_room_resolution_witness :
  let s := run [ConfirmBooking 1] checked_out_store in
  exists body s',
    check_in demo_now (Some 2) 1 s = (Success 200 body, s')
    /\ Booking.d_room_id (booking body) = Some 1
    /\ get_room 2 (rooms s') = Some room_101.
Proof.
  cbv zeta.
  set (s := run [ConfirmBooking 1] checked_out_store).
  assert (Hb : exists b, bookings s !! 1 = Some b
                         /\ Booking.status b = CONFIRMED
                         /\ Booking.room_id b = Some 1)
    by (eexists; split; [vm_compute; reflexivity | split; reflexivity]).
  destruct Hb as (b & Hb & Hst & Hroom).
  destruct (proj1 (check_in_room_resolution demo_now (Some 2) 1 s b 1
                     (Room.set_status VACANT_DIRTY room_102)
                     Hb Hst Hroom ltac:(lia) eq_refl))
    as (body & s' & E & Hd & _ & Hother).
  exists body, s'. split; [exact E |]. split; [exact Hd |].
  rewrite Hother by lia. reflexivity.
Defined.

(** ** Reading a booking back *)

(** X17.  The booking a successful confirmation, cancellation, check-in or
    check-out answers with is the booking [get_booking] returns afterwards
    (for a booking that is not soft-deleted). *)
Theorem transitions_read_back (now : datetime) (reason : option string)
    (requested_room_id : option Z) (booking_id : Z) (s : Store)
    (b : Booking.t) :
  bookings s !! booking_id = Some b ->
  Booking.is_deleted b = false ->
  (forall code body s',
     confirm_booking booking_id s = (Success code body, s') ->
     get_booking booking_id s' = Success 200 (booking body))
  /\ (forall code body s',
        cancel_booking now reason booking_id s = (Success code body, s') ->
        get_booking booking_id s' = Success 200 (cancel_booking_dict body))
  /\ (forall code body s',
        check_in now requested_room_id booking_id s
        = (Success code body, s') ->
        get_booking booking_id s' = Success 200 (booking body))
  /\ (forall code body s',
        check_out now booking_id s = (Success code body, s') ->
        get_booking booking_id s' = Success 200 (booking body)).
Proof.
  intros Hb Hdel. repeat split; intros code body s'.
  - unfold confirm_booking. rewrite Hb. intros [= <- <- <-].
    unfold get_booking. cbn. rewrite lookup_insert_eq.
    destruct b. cbn in *. by rewrite Hdel.
  - unfold cancel_booking. rewrite Hb. case_bool_decide; [done |].
    intros [= <- <- <-]. unfold get_booking. cbn. rewrite lookup_insert_eq.
    destruct b. cbn in *. by rewrite Hdel.
  - unfold check_in. rewrite Hb. case_bool_decide; [| done]. cbn [negb].
    destruct (assign_room _ _ _); [| done].
    destruct (get_room _ _); [| done].
    intros [= <- <- <-]. unfold get_booking. cbn. rewrite lookup_insert_eq.
    destruct b. cbn in *. by rewrite Hdel.
  - unfold check_out. rewrite Hb. case_bool_decide; [| done]. cbn [negb].
    intros [= <- <- <-]. unfold get_booking.
    destruct (booking_room b s) as [[] |]; cbn; rewrite lookup_insert_eq;
      destruct b; cbn in *; by rewrite Hdel.
Qed.

Lemma transitions_read_back_witness :
  exists body s',
    check_in demo_now None 1 confirmed_store = (Success 200 body, s')
    /\ get_booking 1 s' = Success 200 (booking body).
Proof.
  assert (Hb : exists b, bookings confirmed_store !! 1 = Some b
                         /\ Booking.is_deleted b = false)
    by (eexists; split; [vm_compute; reflexivity | reflexivity]).
  destruct Hb as (b & Hb & Hdel).
  assert (E : exists body s',
             check_in demo_now None 1 confirmed_store = (Success 200 body, s'))
    by (do 2 eexists; vm_compute; reflexivity).
  destruct E as (body & s' & E). exists body, s'. split; [exact E |].
  exact (proj1 (proj2 (proj2
    (transitions_read_back demo_now None None 1 confirmed_store b Hb Hdel)))
    200 body s' E).
Defined.

(** ** The cancellation policy, continued *)

Lemma utc_date_mono (now1 now2 : datetime) :
  now1 <= now2 -> utc_date now1 <= utc_date now2.
Proof. intros H. unfold utc_date. apply Z.div_le_mono; lia. Qed.

(** X18.  For a non-negative amount of the [Numeric(10, 2)] column the
    cancellation charge lies between 0 and the total amount, and waiting
    never lowers it: the charge at a later time is not below the charge at
    an earlier one. *)
Theorem cancellation_charge_monotone (check_in : date) (total : Decimal.t)
    (now1 now2 : datetime) :
  Decimal.numeric_10_2 total ->
  Decimal.ltb total Decimal.zero_00 = false ->
  now1 <= now2 ->
  let charge1 := Booking.cancellation_charge (Some check_in) total now1 in
  let charge2 := Booking.cancellation_charge (Some check_in) total now2 in
  Decimal.ltb charge1 Decimal.zero_00 = false
  /\ Decimal.ltb total charge1 = false
  /\ Decimal.ltb charge2 charge1 = false.
Proof.
  intros [He Hc] Hpos Hnow. cbv zeta.
  pose proof (utc_date_mono now1 now2 Hnow) as Hd.
  destruct total as [c e]. cbn [Decimal.coef Decimal.exp] in He, Hc. subst e.
  change (10 ^ 10) with 10000000000 in Hc.
  assert (Hc0 : 0 <= c).
  { unfold Decimal.ltb, Decimal.zero_00 in Hpos.
    cbn [Decimal.coef Decimal.exp] in Hpos.
    change (Z.min (-2) (-2)) with (-2) in Hpos.
    change (-2 - -2) with 0 in Hpos. change (10 ^ 0) with 1 in Hpos.
    apply Z.ltb_ge in Hpos. lia. }
  unfold Booking.cancellation_charge.
  destruct (Z.leb_spec 2 (check_in - utc_date now1));
    [| destruct (Z.leb_spec 0 (check_in - utc_date now1))];
    (destruct (Z.leb_spec 2 (check_in - utc_date now2)); [try lia |];
     (destruct (Z.leb_spec 0 (check_in - utc_date now2)); [try lia |]));
    rewrite ?mul_half_numeric by exact Hc;
    unfold Decimal.ltb, Decimal.zero_00; dec_norm;
    repeat split; apply Z.ltb_ge; lia.
Qed.

Lemma cancellation_charge_monotone_witness :
  let total := Decimal.mk 10001 (-2) in
  Decimal.ltb
    (Booking.cancellation_charge (Some 19784) total (19783 * 86400))
    (Booking.cancellation_charge (Some 19784) total (19781 * 86400))
  = false.
Proof.
  assert (H : Decimal.numeric_10_2 (Decimal.mk 10001 (-2)))
    by (split; [reflexivity | vm_compute; reflexivity]).
  exact (proj2 (proj2
    (cancellation_charge_monotone 19784 (Decimal.mk 10001 (-2))
       (19781 * 86400) (19783 * 86400) H eq_refl ltac:(lia)))).
Defined.

(** ** The availability search, continued *)

Lemma loop_entries_sublist (s : Store) (hotel_id : Z)
    (check_in check_out : date) (rts : list RoomType.t) :
  sublist
    (List.map room_type
       (flat_map (loop_entry s hotel_id check_in check_out) rts)) rts.
Proof.
  induction rts as [| rt rts IH]; simpl; [constructor |].
  unfold loop_entry at 1. destruct (0 <? _); simpl; by constructor.
Qed.

Lemma filter_sublist {A} (f : A -> bool) (l : list A) :
  sublist (List.filter f l) l.
Proof.
  induction l as [| x l IH]; simpl; [constructor |].
  destruct (f x); by constructor.
Qed.

(** X19.  A search is answered with a result only for a range of at least
    one night that does not start before today.  The result lists room
    types in the order of the room-type table, each row at most once, and
    no entry reports more rooms than the pool of its type has; every entry
    carries the number of nights of the range. *)
Theorem search_availability_shape (today : date) (hotel_id : Z)
    (check_in check_out : date) (num_guests : Z) (s : Store) (code : Z)
    (body : SearchBody) :
  search_availability today hotel_id check_in check_out num_guests s
  = Success code body ->
  code = 200
  /\ check_in < check_out
  /\ today <= check_in
  /\ sb_num_nights body = check_out - check_in
  /\ sublist (List.map room_type (available_room_types body)) (room_types s)
  /\ forall e,
       In e (available_room_types body) ->
       available_rooms e
       <= total_rooms s hotel_id (RoomType.id (room_type e))
       /\ num_nights e = check_out - check_in
       /\ 0 < num_nights e.
Proof.
  unfold search_availability.
  destruct (Z.leb_spec check_out check_in) as [| Hr]; [done |].
  destruct (Z.ltb_spec check_in today) as [| Ht]; [done |].
  intros [= <- <-]. cbn [sb_num_nights available_room_types].
  rewrite available_types_loop_flat_map. cbn [app].
  repeat split; try done.
  - etransitivity; [apply loop_entries_sublist | apply filter_sublist].
  - apply in_flat_map in H as (rt & _ & He). unfold loop_entry in He.
    destruct (0 <? _); [| done]. destruct He as [<- | []]. cbn.
    unfold booked_rooms. lia.
  - apply in_flat_map in H as (rt & _ & He). unfold loop_entry in He.
    destruct (0 <? _); [| done]. by destruct He as [<- | []].
  - apply in_flat_map in H as (rt & _ & He). unfold loop_entry in He.
    destruct (0 <? _); [| done]. destruct He as [<- | []]. cbn. lia.
Qed.

Lemma search_availability_shape_witness :
  exists body,
    search_availability 19780 1 19783 19785 2 confirmed_store
    = Success 200 body
    /\ sublist (List.map room_type (available_room_types body))
         (room_types confirmed_store).
Proof.
  assert (E : exists body,
             search_availability 19780 1 19783 19785 2 confirmed_store
             = Success 200 body) by (eexists; vm_compute; reflexivity).
  destruct E as (body & E). exists body. split; [exact E |].
  exact (proj1 (proj2 (proj2 (proj2 (proj2
    (search_availability_shape _ _ _ _ _ _ _ _ E)))))).
Defined.

(** ** What the routes keep of the booking record *)

Lemma room_assigned_run_witness :
  room_assigned
    (run [CreateBooking "BK20240227A1B2C3" 1 1 demo_request; ConfirmBooking 1;
          CheckIn demo_now None 1; CheckOut (demo_now + 86400) 1;
          ConfirmBooking 1] demo_store).
Proof.
  apply room_assigned_run. intros booking_id b Hb.
  change (bookings demo_store) with (∅ : gmap Z Booking.t) in Hb.
  by rewrite lookup_empty in Hb.
Defined.

Lemma records_consistent_insert (s : Store) (booking_id : Z) (b' : Booking.t)
    (us : list User.t) (rs : list Room.t) (ts : list HousekeepingTask.t) :
  records_consistent s ->
  record_consistent b' ->
  records_consistent
    (mkStore (hotels s) us (room_types s) rs
       (<[booking_id := b']> (bookings s)) ts).
Proof.
  intros Hs Hb' id b Hl. cbn in Hl.
  destruct (decide (booking_id = id)) as [<- | Hne].
  - rewrite lookup_insert_eq in Hl. by injection Hl as <-.
  - rewrite lookup_insert_ne in Hl by done. by apply (Hs id).
Qed.

Lemma records_consistent_handle (r : Request) (s : Store) :
  records_consistent s -> records_consistent (handle r s).
Proof.
  intros Hs.
  destruct r as [number uid bid data | booking_id | now reason booking_id
                | now requested booking_id | now booking_id];
    cbn [handle].
  - destruct (create_booking_outcome number uid bid data s)
      as [E | (gid & us' & b & E & -> & _)]; rewrite E; cbn [snd];
      [exact Hs |].
    apply (records_consistent_insert s); [exact Hs |].
    repeat split; cbn; try discriminate; by intros [? ?].
  - unfold confirm_booking.
    destruct (bookings s !! booking_id) as [b |] eqn:Hb; cbn [snd];
      [| exact Hs].
    apply (records_consistent_insert s); [exact Hs |].
    destruct (Hs _ _ Hb) as (_ & _ & H3 & _).
    destruct b; repeat split; cbn in *; try discriminate; done.
  - unfold cancel_booking.
    destruct (bookings s !! booking_id) as [b |] eqn:Hb; cbn [snd];
      [| exact Hs].
    case_bool_decide; cbn [snd]; [exact Hs |].
    apply (records_consistent_insert s); [exact Hs |].
    destruct (Hs _ _ Hb) as (_ & _ & H3 & _).
    destruct b; repeat split; cbn in *; try discriminate; done.
  - unfold check_in.
    destruct (bookings s !! booking_id) as [b |] eqn:Hb; cbn [snd];
      [| exact Hs].
    case_bool_decide; cbn [negb snd]; [| exact Hs].
    destruct (assign_room _ _ _); cbn [snd]; [| exact Hs].
    destruct (get_room _ _); cbn [snd]; [| exact Hs].
    apply (records_consistent_insert s); [exact Hs |].
    destruct b; repeat split; cbn in *; try discriminate; done.
  - unfold check_out.
    destruct (bookings s !! booking_id) as [b |] eqn:Hb; cbn [snd];
      [| exact Hs].
    case_bool_decide as Hst; cbn [negb snd]; [| exact Hs].
    destruct (Hs _ _ Hb) as (_ & H2 & _).
    specialize (H2 Hst).
    destruct (booking_room _ _) as [[] |];
      (apply (records_consistent_insert s); [exact Hs |]);
      destruct b; repeat split; cbn in *; try discriminate; done.
Qed.

(** X21.  However the routes are called, the columns of every booking stay
    consistent with its status: a PENDING booking has no room, no stay and
    no cancellation; a CHECKED_IN booking has a check-in time; a check-out
    time never comes without a check-in time, and a CHECKED_OUT booking has
    both; a CANCELLED booking has a cancellation time and a refund. *)
Theorem records_consistent_run (requests : list Request) (s : Store) :
  records_consistent s -> records_consistent (run requests s).
Proof.
  revert s. induction requests as [| r requests IH]; intros s Hs; [exact Hs |].
  apply IH, records_consistent_handle, Hs.
Qed.

Lemma records_consistent_run_witness :
  records_consistent
    (run [CreateBooking "BK20240227A1B2C3" 1 1 demo_request; ConfirmBooking 1;
          CheckIn demo_now None 1; CancelBooking (demo_now + 86400) None 1;
          ConfirmBooking 1] demo_store).
Proof.
  apply records_consistent_run. intros booking_id b Hb.
  change (bookings demo_store) with (∅ : gmap Z Booking.t) in Hb.
  by rewrite lookup_empty in Hb.
Defined.

(** ** Requests sent twice *)

Lemma check_in_rejected (now : datetime) (requested_room_id : option Z)
    (booking_id : Z) (s : Store) (b : Booking.t) :
  bookings s !! booking_id = Some b ->
  Booking.status b <> CONFIRMED ->
  check_in now requested_room_id booking_id s
  = (Failure 400 "Booking must be confirmed before check-in", s).
Proof.
  intros Hb Hst. unfold check_in. rewrite Hb.
  by rewrite (bool_decide_eq_false_2 _ Hst).
Qed.

Lemma check_out_rejected (now : datetime) (booking_id : Z) (s : Store)
    (b : Booking.t) :
  bookings s !! booking_id = Some b ->
  Booking.status b <> CHECKED_IN ->
  check_out now booking_id s = (Failure 400 "Guest is not checked in", s).
Proof.
  intros Hb Hst. unfold check_out. rewrite Hb.
  by rewrite (bool_decide_eq_false_2 _ Hst).
Qed.

Lemma cancel_booking_stored (now : datetime) (reason : option string)
    (booking_id : Z) (s s' : Store) (code : Z) (body : CancelBody) :
  cancel_booking now reason booking_id s = (Success code body, s') ->
  exists b', bookings s' !! booking_id = Some b'
             /\ Booking.status b' = CANCELLED.
Proof.
  unfold cancel_booking. destruct (bookings s !! booking_id) as [b |]; [| done].
  case_bool_decide; [done |]. intros [= <- <- <-].
  eexists. split; [apply lookup_insert_eq | by destruct b].
Qed.

Lemma check_out_stored (now : datetime) (booking_id : Z) (s s' : Store)
    (code : Z) (body : BookingBody) :
  check_out now booking_id s = (Success code body, s') ->
  exists b', bookings s' !! booking_id = Some b'
             /\ Booking.status b' = CHECKED_OUT.
Proof.
  unfold check_out. destruct (bookings s !! booking_id) as [b |]; [| done].
  case_bool_decide; [| done]. cbn [negb]. intros [= <- <- <-].
  exists (Booking.set_actual_check_out (Some now)
            (Booking.set_status CHECKED_OUT b)).
  split; [| by destruct b].
  destruct (booking_room b s) as [[] |]; apply lookup_insert_eq.
Qed.

(** X22.  No transition but the confirmation can be replayed.  After a
    successful check-in a second check-in is answered 400; after a
    successful check-out neither a check-out nor a check-in is accepted;
    after a successful cancellation neither a cancellation, a check-in nor
    a check-out is accepted; each of these rejections changes nothing.  A
    confirmation sent again is answered as the first one was and leaves
    the store as the first one left it. *)
Theorem transitions_replayed (now now' : datetime)
    (reason reason' : option string) (requested requested' : option Z)
    (booking_id : Z) (s : Store) :
  (forall code body s',
     check_in now requested booking_id s = (Success code body, s') ->
     check_in now' requested' booking_id s'
     = (Failure 400 "Booking must be confirmed before check-in", s'))
  /\ (forall code body s',
        check_out now booking_id s = (Success code body, s') ->
        check_out now' booking_id s'
        = (Failure 400 "Guest is not checked in", s')
        /\ check_in now' requested' booking_id s'
           = (Failure 400 "Booking must be confirmed before check-in", s'))
  /\ (forall code body s',
        cancel_booking now reason booking_id s = (Success code body, s') ->
        cancel_booking now' reason' booking_id s'
        = (Failure 400 "Booking already cancelled", s')
        /\ check_in now' requested' booking_id s'
           = (Failure 400 "Booking must be confirmed before check-in", s')
        /\ check_out now' booking_id s'
           = (Failure 400 "Guest is not checked in", s'))
  /\ (forall code body s',
        confirm_booking booking_id s = (Success code body, s') ->
        confirm_booking booking_id s' = (Success code body, s')).
Proof.
  repeat split.
  - intros code body s' E.
    destruct (check_in_success _ _ _ _ _ _ _ E)
      as (b & room_id & room & _ & _ & _ & _ & _ & _ & Hbs & _).
    eapply check_in_rejected; [rewrite Hbs; apply lookup_insert_eq |].
    by destruct b.
  - destruct (check_out_stored _ _ _ _ _ _ H) as (b' & Hb' & Hst).
    eapply check_out_rejected; [exact Hb' | by rewrite Hst].
  - destruct (check_out_stored _ _ _ _ _ _ H) as (b' & Hb' & Hst).
    eapply check_in_rejected; [exact Hb' | by rewrite Hst].
  - destruct (cancel_booking_stored _ _ _ _ _ _ _ H) as (b' & Hb' & Hst).
    unfold cancel_booking. rewrite Hb'.
    by rewrite (bool_decide_eq_true_2 _ Hst).
  - destruct (cancel_booking_stored _ _ _ _ _ _ _ H) as (b' & Hb' & Hst).
    eapply check_in_rejected; [exact Hb' | by rewrite Hst].
  - destruct (cancel_booking_stored _ _ _ _ _ _ _ H) as (b' & Hb' & Hst).
    eapply check_out_rejected; [exact Hb' | by rewrite Hst].
  - intros code body s'. unfold confirm_booking.
    destruct (bookings s !! booking_id) as [b |]; [| done].
    intros [= <- <- <-]. cbn [bookings set_bookings].
    rewrite lookup_insert_eq. unfold set_bookings. cbn.
    rewrite insert_insert_eq. by destruct b.
Qed.

(** ** Authentication of check-in and check-out *)

Lemma split_nonempty (sep : Ascii.ascii) (s : string) : split sep s <> [].
Proof.
  induction s as [| c s IH]; [done |]. simpl.
  destruct (Ascii.eqb c sep); [done |]. by destruct (split sep s).
Qed.

Lemma split_no_sep (s : string) : no_space s -> split space s = [s].
Proof.
  unfold no_space. induction s as [| c s IH]; [done |]. simpl. intros H.
  destruct (Ascii.eqb_spec c space) as [-> | _]; [by destruct H; left |].
  rewrite IH; [done |]. intros Hin. apply H. by right.
Qed.

Lemma split_first_field (s rest : string) :
  no_space s ->
  split space (String.append s (String space rest)) = s :: split space rest.
Proof.
  unfold no_space. induction s as [| c s IH]; [done |]. simpl. intros H.
  destruct (Ascii.eqb_spec c space) as [-> | _]; [by destruct H; left |].
  rewrite IH; [done |]. intros Hin. apply H. by right.
Qed.

Lemma split_second_field (scheme token : string) :
  no_space scheme ->
  no_space token ->
  nth_error (split space (String.append scheme (String space token))) 1
  = Some token.
Proof.
  intros Hs Ht. by rewrite split_first_field, split_no_sep.
Qed.

(** What [token_required] does once the header yields a token. *)
Lemma token_required_token {A : Type} (jwt_decode : string -> JwtResult)
    (accounts : list Account.t) (header token : string)
    (f : Account.t -> Store -> Response A * Store) (s : Store)
    (payload : Payload) (user_id : Z) (current_user : Account.t) :
  nth_error (split space header) 1 = Some token ->
  token <> EmptyString ->
  jwt_decode token = Decoded payload ->
  payload_user_id payload = Some user_id ->
  get_account user_id accounts = Some current_user ->
  Account.is_active current_user = true ->
  token_required jwt_decode accounts (Some header) f s = f current_user s.
Proof.
  intros Hn Ht Hd Hu Ha Hact. unfold token_required. rewrite Hn.
  destruct token as [| c token]; [done |].
  by rewrite Hd, Hu, Ha, Hact.
Qed.

(** X23.  [token_required] takes the second space-separated field of the
    Authorization header as the token and checks nothing else about the
    header or the token's claims but the user: whatever the first word is
    (it need not be "Bearer") and whatever the type claim says (a refresh
    token does as well as an access token), a token that decodes to the id
    of an active user lets check-in and check-out run as they are. *)
Theorem token_required_second_field (jwt_decode : string -> JwtResult)
    (accounts : list Account.t) (scheme token : string) (payload : Payload)
    (user_id : Z) (current_user : Account.t) (now : datetime)
    (requested_room_id : option Z) (booking_id : Z) (s : Store) :
  no_space scheme ->
  no_space token ->
  token <> EmptyString ->
  jwt_decode token = Decoded payload ->
  payload_user_id payload = Some user_id ->
  get_account user_id accounts = Some current_user ->
  Account.is_active current_user = true ->
  let authorization := Some (String.append scheme (String space token)) in
  check_in_route jwt_decode accounts authorization now requested_room_id
    booking_id s
  = check_in now requested_room_id booking_id s
  /\ check_out_route jwt_decode accounts authorization now booking_id s
     = check_out now booking_id s.
Proof.
  intros Hs Ht Hne Hd Hu Ha Hact. cbv zeta.
  unfold check_in_route, check_out_route.
  split; by erewrite token_required_token;
    [| apply split_second_field | ..].
Qed.

Lemma token_required_second_field_witness :
  check_in_route demo_decode demo_accounts
    (Some "Basic header.claims.signature") demo_now None 1 confirmed_store
  = check_in demo_now None 1 confirmed_store.
Proof.
  refine (proj1 (token_required_second_field demo_decode demo_accounts
                   "Basic" "header.claims.signature"
                   (mkPayload (Some 1) (Some "refresh")) 1
                   (Account.mk
                      (User.mk 1 "desk@example.org" "Dee" "Desk" "0722" None
                         FRONT_DESK) None (Some 1) true None)
                   demo_now None 1 confirmed_store _ _ _ eq_refl eq_refl
                   eq_refl eq_refl));
    [| | discriminate];
    unfold no_space; cbn; intros H;
    repeat (destruct H as [H | H]; [discriminate H |]); exact H.
Defined.

(** X24.  Without a token there is no check-in: the wrapped route answers
    either as [check_in] does, which it does only when the second field of
    the header is a non-empty token that decodes to the id of an existing,
    active user, or with a failure that leaves the store as it was. *)
Theorem check_in_route_guard (jwt_decode : string -> JwtResult)
    (accounts : list Account.t) (authorization : option string)
    (now : datetime) (requested_room_id : option Z) (booking_id : Z)
    (s : Store) :
  let r :=
    check_in_route jwt_decode accounts authorization now requested_room_id
      booking_id s in
  (exists header token payload user_id current_user,
     authorization = Some header
     /\ nth_error (split space header) 1 = Some token
     /\ token <> EmptyString
     /\ jwt_decode token = Decoded payload
     /\ payload_user_id payload = Some user_id
     /\ get_account user_id accounts = Some current_user
     /\ Account.is_active current_user = true
     /\ r = check_in now requested_room_id booking_id s)
  \/ (succeeded r.1 = false /\ r.2 = s).
Proof.
  cbv zeta. unfold check_in_route, token_required.
  destruct authorization as [header |]; [| by right].
  destruct (nth_error (split space header) 1) as [token |] eqn:Hn;
    [| by right].
  destruct token as [| c token]; [by right |].
  destruct (jwt_decode (String c token)) as [payload | |] eqn:Hd;
    [| by right | by right].
  destruct (payload_user_id payload) as [user_id |] eqn:Hu; [| by right].
  destruct (get_account user_id accounts) as [current_user |] eqn:Ha;
    [| by right].
  destruct (Account.is_active current_user) eqn:Hact; [| by right].
  left. exists header, (String c token), payload, user_id, current_user.
  by repeat split.
Qed.

(** X25.  The header cases of [token_required]: with no Authorization
    header, and with a header whose second field is empty (a space at the
    end, or two spaces after the first word), the answer is 401 "Token is
    missing"; with a header that holds no space at all it is 401 "Invalid
    token format".  The store is untouched and the decoder is not asked. *)
Theorem token_required_header_cases {A : Type}
    (jwt_decode : string -> JwtResult) (accounts : list Account.t)
    (f : Account.t -> Store -> Response A * Store) (s : Store)
    (word rest : string) :
  no_space word ->
  token_required jwt_decode accounts None f s
  = (Failure 401 "Token is missing", s)
  /\ token_required jwt_decode accounts (Some word) f s
     = (Failure 401 "Invalid token format", s)
  /\ token_required jwt_decode accounts
       (Some (String.append word (String space EmptyString))) f s
     = (Failure 401 "Token is missing", s)
  /\ token_required jwt_decode accounts
       (Some (String.append word (String space (String space rest)))) f s
     = (Failure 401 "Token is missing", s).
Proof.
  intros Hw. unfold token_required.
  split; [reflexivity |].
  split; [by rewrite split_no_sep |].
  split; rewrite split_first_field by done; [reflexivity |].
  cbn [split]. unfold space at 2 3. cbn [Ascii.eqb Ascii.ascii_of_nat].
  reflexivity.
Qed.

Lemma token_required_header_cases_witness :
  check_in_route demo_decode demo_accounts (Some "Bearer") demo_now None 1
    confirmed_store
  = (Failure 401 "Invalid token format", confirmed_store)
  /\ check_in_route demo_decode demo_accounts
       (Some "Bearer  header.claims.signature") demo_now None 1
       confirmed_store
     = (Failure 401 "Token is missing", confirmed_store).
Proof.
  assert (Hw : no_space "Bearer").
  { unfold no_space; cbn; intros H.
    repeat (destruct H as [H | H]; [discriminate H |]). exact H. }
  destruct (token_required_header_cases demo_decode demo_accounts
              (fun _ => check_in demo_now None 1) confirmed_store
              "Bearer" "header.claims.signature" Hw) as (_ & H1 & _ & H2).
  split; [exact H1 | exact H2].
Defined.
